(** * MalletCorpus: the Mallet line format of gensim

    A shallow embedding of [gensim/corpora/malletcorpus.py] and the
    properties of its reader ([line2doc], [__iter__], [docbyoffset],
    [_calculate_num_docs]) and of its writer ([save_corpus]).

    Conventions of the model.
    - Text is a list of 8-bit characters and is read in the 7-bit range,
      where [utils.to_unicode] and [utils.to_utf8] are the identity and
      one character is one byte of the file.
    - A file is represented by its content; a file opened for writing
      starts empty, and [tell] is the number of bytes written so far.
    - A count is a Python number: an [int], or a finite [float] given
      by its exact rational value ([nan] and [inf], on which [int()]
      raises, are left out).
    - Python exceptions are the [Raise] results of an error monad. *)

From Stdlib Require Import ZArith QArith Qabs Ascii String Decimal DecimalNat Lia.
From stdpp Require Import gmap strings list.

(** ** Python text primitives *)

Module Py.

Abbreviation text := (list ascii) (only parsing).

Definition txt (s : string) : text := list_ascii_of_string s.

Definition space : ascii := " "%char.
Definition newline : ascii := "010"%char.

(** [unicode.isspace] on the 7-bit range: TAB, LF, VT, FF, CR, the four
    separators FS, GS, RS, US, and the space. *)
Definition isspace (c : ascii) : bool :=
  let n := nat_of_ascii c in
  ((9 <=? n) && (n <=? 13)) || ((28 <=? n) && (n <=? 32)).

Definition is_space_char (c : ascii) : bool :=
  if ascii_dec c space then true else false.

Definition is_newline (c : ascii) : bool :=
  if ascii_dec c newline then true else false.

(** [s.lstrip()] *)
Fixpoint lstrip (s : text) : text :=
  match s with
  | [] => []
  | c :: s' => if isspace c then lstrip s' else s
  end.

(** [s.rstrip()] *)
Fixpoint rstrip (s : text) : text :=
  match s with
  | [] => []
  | c :: s' =>
      match rstrip s' with
      | [] => if isspace c then [] else [c]
      | r => c :: r
      end
  end.

(** [s.strip()] *)
Definition strip (s : text) : text := lstrip (rstrip s).

(** [s.split(' ')]: one piece more than there are spaces, empty pieces
    included; the empty text splits into one empty piece. *)
Fixpoint split (s : text) : list text :=
  match s with
  | [] => [[]]
  | c :: s' =>
      if is_space_char c then [] :: split s'
      else match split s' with
           | w :: ws => (c :: w) :: ws
           | [] => [[c]]
           end
  end.

(** [' '.join(ws)] *)
Fixpoint join (ws : list text) : text :=
  match ws with
  | [] => []
  | [w] => w
  | w :: ws' => w ++ space :: join ws'
  end.

Definition nonempty (w : text) : bool :=
  match w with [] => false | _ => true end.

Fixpoint digits (d : uint) : text :=
  match d with
  | Nil => []
  | D0 d => "0"%char :: digits d
  | D1 d => "1"%char :: digits d
  | D2 d => "2"%char :: digits d
  | D3 d => "3"%char :: digits d
  | D4 d => "4"%char :: digits d
  | D5 d => "5"%char :: digits d
  | D6 d => "6"%char :: digits d
  | D7 d => "7"%char :: digits d
  | D8 d => "8"%char :: digits d
  | D9 d => "9"%char :: digits d
  end.

(** ['%s' % n] for a non-negative [int]: its decimal rendering. *)
Definition str_of_nat (n : nat) : text := digits (Nat.to_uint n).

(** A Python number as a count can be: [int] or finite [float]. *)
Inductive number :=
  | PyInt (n : Z)
  | PyFloat (q : Q).

Definition value (v : number) : Q :=
  match v with
  | PyInt n => inject_Z n
  | PyFloat q => q
  end.

(** [int(v)]: truncation toward zero. *)
Definition int (v : number) : Z :=
  match v with
  | PyInt n => n
  | PyFloat q => Z.quot (Qnum q) (Z.pos (Qden q))
  end.

(** Python's [==] on numbers. *)
Definition num_eq (v w : number) : Prop := (value v == value w)%Q.

(** The exceptions the code can raise. *)
Inductive error :=
  | KeyError
  | IndexError
  | TypeError
  | ValueError.

Inductive result (A : Type) :=
  | Ok (a : A)
  | Raise (e : error).
Arguments Ok {A} a.
Arguments Raise {A} e.

#[global] Instance result_ret : MRet result := fun A a => Ok a.

#[global] Instance result_bind : MBind result := fun A B k r =>
  match r with
  | Ok a => k a
  | Raise e => Raise e
  end.

(** [d[k]] on a dict *)
Definition getitem {K} `{Countable K} {V} (d : gmap K V) (k : K) : result V :=
  match d !! k with
  | Some v => Ok v
  | None => Raise KeyError
  end.

End Py.

Export Py.

(** ** Collaborators outside [malletcorpus.py] *)

Module Utils.

(** Modelled from the spec: [utils.to_utf8], which gives the line's
    "UTF-8 bytes" that are appended to the sink; [gensim/utils.py] is not
    among the sources.  On 7-bit text the bytes are the characters. *)
Definition to_utf8 (s : text) : text := s.

(** Modelled from the spec: [utils.to_unicode], which turns the bytes of
    "one line of text" read from the source back into text; the inverse
    of [to_utf8]. *)
Definition to_unicode (s : text) : text := s.

End Utils.

(** ** Data model *)

(** A bag-of-words: a sequence of [(wordid, value)] pairs. *)
Abbreviation bow := (list (Z * number)) (only parsing).

(** What the corpus holds and what the reader yields: a bare document,
    or the tuple [(doc, (docid, doclang))] of metadata mode. *)
Inductive document :=
  | Bare (doc : bow)
  | WithMeta (doc : bow) (meta : text * text).

Definition doc_of (item : document) : bow :=
  match item with
  | Bare doc => doc
  | WithMeta doc _ => doc
  end.

(** The records sent to [logger]. *)
Inductive log_record :=
  | Info_no_mapping
  | Info_storing
  | Warning_truncated (truncated : nat).

(** What a call of [save_corpus] leaves behind: the content of the file
    [fname], the returned [offsets], and the log. *)
Record saved := {
  written : text;
  offsets : list nat;
  log : list log_record
}.

(** ** The writer *)

Module Writer.

(** The literal [1e-6]: the double it denotes, [0x1.0c6f7a0b5ed8dp-20]. *)
Definition tolerance : Q := 4722366482869645 # 4722366482869645213696.

(** [abs(int(value) - value) > 1e-6] *)
Definition exceeds_tolerance (v : number) : bool :=
  negb (Qle_bool (Qabs (inject_Z (int v) - value v)) tolerance).

Definition unknown : text := txt "__unknown__".

(** ['%s %s %s\n' % (doc_id, doc_lang, body)] *)
Definition format_line (doc_id doc_lang body : text) : text :=
  doc_id ++ space :: doc_lang ++ space :: body ++ [newline].

(** The loop [for wordid, value in doc], from the state
    [(words, truncated)] it starts in. *)
Fixpoint collect_words (id2word : gmap Z text) (doc : bow)
    (words : list text) (truncated : nat) : result (list text * nat) :=
  match doc with
  | [] => Ok (words, truncated)
  | (wordid, v) :: doc' =>
      let truncated := if exceeds_tolerance v then S truncated else truncated in
      tok ← getitem id2word wordid;
      collect_words id2word doc' (words ++ replicate (Z.to_nat (int v)) tok) truncated
  end.

(** The head of the loop body: [(doc_id, doc_lang, doc)] for the item at
    position [n].  An item of the other mode makes Python raise: in
    metadata mode a bare document is indexed and unpacked as if it were
    the tuple, and without metadata the tuple is iterated as if it were
    the document. *)
Definition unpack (metadata : bool) (n : nat) (item : document)
    : result (text * text * bow) :=
  if metadata then
    match item with
    | WithMeta doc (doc_id, doc_lang) => Ok (doc_id, doc_lang, doc)
    | Bare doc => if (length doc <? 2)%nat then Raise IndexError else Raise TypeError
    end
  else
    match item with
    | Bare doc => Ok (str_of_nat n, unknown, doc)
    | WithMeta doc _ => if (length doc =? 2)%nat then Raise TypeError else Raise ValueError
    end.

(** The loop [for doc_id, doc in enumerate(corpus)], from position [n]
    and the state [(fout, offsets, truncated)]. *)
Fixpoint write_docs (id2word : gmap Z text) (metadata : bool)
    (corpus : list document) (n : nat)
    (fout : text) (offsets : list nat) (truncated : nat)
    : result (text * list nat * nat) :=
  match corpus with
  | [] => Ok (fout, offsets, truncated)
  | item :: corpus' =>
      '(doc_id, doc_lang, doc) ← unpack metadata n item;
      '(words, truncated) ← collect_words id2word doc [] truncated;
      let offsets := offsets ++ [length fout] in
      let fout := fout ++ Utils.to_utf8 (format_line doc_id doc_lang (join words)) in
      write_docs id2word metadata corpus' (S n) fout offsets truncated
  end.

Section SaveCorpus.

(** [utils.dict_from_corpus], the builder of a mapping when the caller
    gives none. *)
Variable dict_from_corpus : list document -> gmap Z text.

Definition save_corpus (corpus : list document)
    (id2word : option (gmap Z text)) (metadata : bool) : result saved :=
  let '(id2word, log) :=
    match id2word with
    | None => (dict_from_corpus corpus, [Info_no_mapping])
    | Some id2word => (id2word, [])
    end in
  let log := log ++ [Info_storing] in
  '(fout, offsets, truncated) ← write_docs id2word metadata corpus 0 [] [] 0;
  let log :=
    match truncated with
    | O => log
    | S _ => log ++ [Warning_truncated truncated]
    end in
  Ok {| written := fout; offsets := offsets; log := log |}.

End SaveCorpus.

End Writer.

(** ** The base class *)

Module LowCorpus.

(** The tokens of a line: strip, split on single spaces, drop the empty
    pieces. *)
Definition tokens (line : text) : list text :=
  List.filter nonempty (split (strip (Utils.to_unicode line))).

(** The distinct tokens, each at its first occurrence. *)
Fixpoint distinct (ws : list text) : list text :=
  match ws with
  | [] => []
  | w :: ws' => w :: filter (λ x, x ≠ w) (distinct ws')
  end.

(** [ws.count(w)] *)
Definition count (w : text) (ws : list text) : nat :=
  length (filter (λ x, x = w) ws).

(** Modelled from the spec: the reduction of a token stream to a
    bag-of-words inside [LowCorpus.line2doc]
    ([gensim/corpora/lowcorpus.py] is not among the sources).  "Group
    equal tokens, map each distinct token through the external token→id
    lookup, and emit one (id, count) pair per distinct token, count =
    number of occurrences of that token in the line.  Tokens absent from
    the mapping are silently skipped." *)
Definition reduce (word2id : gmap text Z) (ws : list text) : bow :=
  omap (λ w, id ← word2id !! w; Some (id, PyInt (Z.of_nat (count w ws))))
       (distinct ws).

(** Modelled from the spec: [LowCorpus.line2doc], the decoder of the
    base class.  It receives the token stream as one text, cuts it into
    tokens as the decoder of the line does, and reduces them; it does not
    raise. *)
Definition line2doc (word2id : gmap text Z) (line : text) : result bow :=
  Ok (reduce word2id (tokens line)).

End LowCorpus.

(** ** The reader *)

Module Reader.

(** [l[i]] on a list *)
Definition index {A} (l : list A) (i : nat) : result A :=
  match l !! i with
  | Some x => Ok x
  | None => Raise IndexError
  end.

(** [f.readline()]: up to and including the first newline. *)
Fixpoint readline (s : text) : text :=
  match s with
  | [] => []
  | c :: s' => if is_newline c then [c] else c :: readline s'
  end.

(** [for line in f]: the lines of the file, each with its newline; the
    last one has none when the file does not end in one. *)
Fixpoint file_lines (s : text) : list text :=
  match s with
  | [] => []
  | c :: s' =>
      if is_newline c then [c] :: file_lines s'
      else match file_lines s' with
           | [] => [[c]]
           | l :: ls => (c :: l) :: ls
           end
  end.

(** [sum([1 for x in fin])] *)
Definition _calculate_num_docs (content : text) : nat :=
  foldr Nat.add 0%nat (map (λ _, 1%nat) (file_lines content)).

Section MalletCorpus.

(** [super(MalletCorpus, self).line2doc] *)
Variable super_line2doc : text -> result bow.

(** [self.metadata] *)
Variable metadata : bool.

(** The list [l] of [line2doc]. *)
Definition fields (line : text) : list text :=
  List.filter nonempty (split (strip (Utils.to_unicode line))).

Definition line2doc (line : text) : result document :=
  let l := fields line in
  docid ← index l 0;
  doclang ← index l 1;
  let words := drop 2 l in
  doc ← super_line2doc (join words);
  if metadata then Ok (WithMeta doc (docid, doclang)) else Ok (Bare doc).

(** The generator [__iter__] over the lines of the file: the documents
    it yields, and the exception that ends it, if one does. *)
Fixpoint iter_lines (lines : list text) : list document * option error :=
  match lines with
  | [] => ([], None)
  | line :: lines' =>
      match line2doc line with
      | Ok d => let '(ds, e) := iter_lines lines' in (d :: ds, e)
      | Raise e => ([], Some e)
      end
  end.

Definition __iter__ (content : text) : list document * option error :=
  iter_lines (file_lines content).

(** [f.seek(offset)], then [line2doc(f.readline())]. *)
Definition docbyoffset (content : text) (offset : nat) : result document :=
  line2doc (readline (drop offset content)).

End MalletCorpus.

End Reader.

(** ** Vocabulary of the statements *)

Module Props.

Import Writer Reader.

(** A field that survives the reader's cutting: not empty, no whitespace. *)
Definition is_plain (w : text) : bool :=
  nonempty w && forallb (λ c, negb (isspace c)) w.

(** The characters of a plain text, one by one. *)
Definition solid (s : text) : Prop := Forall (λ c, isspace c = false) s.

(** A text with no newline in it. *)
Definition one_line (s : text) : Prop := Forall (λ c, is_newline c = false) s.

(** A line of a file as [for line in f] gives it when the file ends in a
    newline: no newline but the last character. *)
Definition terminated (l : text) : Prop :=
  ∃ body, one_line body ∧ l = body ++ [newline].

(** The tokens a document is written as, under a mapping that knows its
    ids. *)
Definition tokens_of (id2word : gmap Z text) (doc : bow) : list text :=
  flat_map (λ p, replicate (Z.to_nat (int p.2)) (default [] (id2word !! p.1))) doc.

(** The pairs of a document whose count is off its integer part by more
    than the tolerance. *)
Definition events (doc : bow) : nat :=
  length (List.filter (λ p, exceeds_tolerance p.2) doc).

Definition total_events (corpus : list document) : nat :=
  foldr Nat.add 0%nat (map (λ item, events (doc_of item)) corpus).

Definition known (id2word : gmap Z text) (doc : bow) : Prop :=
  Forall (λ p, is_Some (id2word !! p.1)) doc.

(** The item has the shape the mode expects. *)
Definition fits (metadata : bool) (item : document) : Prop :=
  match item with
  | Bare _ => metadata = false
  | WithMeta _ _ => metadata = true
  end.

(** The corpora [save_corpus] writes without raising. *)
Definition encodable (id2word : gmap Z text) (metadata : bool)
    (corpus : list document) : Prop :=
  Forall (λ item, fits metadata item ∧ known id2word (doc_of item)) corpus.

(** The two leading fields of the line of the item at position [n]. *)
Definition heading (metadata : bool) (n : nat) (item : document) : text * text :=
  match item with
  | WithMeta _ meta => if metadata then meta else (str_of_nat n, unknown)
  | Bare _ => (str_of_nat n, unknown)
  end.

Definition line_of (id2word : gmap Z text) (metadata : bool) (n : nat)
    (item : document) : text :=
  format_line (heading metadata n item).1 (heading metadata n item).2
              (join (tokens_of id2word (doc_of item))).

Fixpoint lines_of (id2word : gmap Z text) (metadata : bool) (n : nat)
    (corpus : list document) : list text :=
  match corpus with
  | [] => []
  | item :: corpus' =>
      line_of id2word metadata n item :: lines_of id2word metadata (S n) corpus'
  end.

(** Where each of the lines starts, the first one at [pos]. *)
Fixpoint starts (pos : nat) (lines : list text) : list nat :=
  match lines with
  | [] => []
  | l :: ls => pos :: starts (pos + length l) ls
  end.

(** The mapping [save_corpus] works with. *)
Definition mapping_used (dict_from_corpus : list document -> gmap Z text)
    (corpus : list document) (id2word : option (gmap Z text)) : gmap Z text :=
  match id2word with
  | Some m => m
  | None => dict_from_corpus corpus
  end.

(** The count is a positive integer. *)
Definition positive_integer (v : number) : bool :=
  Qeq_bool (value v) (inject_Z (int v)) && (0 <? int v)%Z.

(** The id has a plain token, and the token leads back to the id. *)
Definition two_way (id2word : gmap Z text) (word2id : gmap text Z) (id : Z) : bool :=
  match id2word !! id with
  | Some tok =>
      is_plain tok &&
      match word2id !! tok with
      | Some id' => (id' =? id)%Z
      | None => false
      end
  | None => false
  end.

Definition all_two_way (id2word : gmap Z text) (word2id : gmap text Z)
    (doc : bow) : Prop :=
  Forall (λ p, two_way id2word word2id p.1 = true) doc.

(** A document of the data model under a two-way mapping: ids unique,
    each with its plain token. *)
Definition well_formed (id2word : gmap Z text) (word2id : gmap text Z)
    (doc : bow) : Prop :=
  NoDup doc.*1 ∧ all_two_way id2word word2id doc.

(** Metadata that the line format can carry. *)
Definition plain_meta (item : document) : Prop :=
  match item with
  | Bare _ => True
  | WithMeta _ (docid, doclang) => is_plain docid = true ∧ is_plain doclang = true
  end.

(** An item that reads back as it was written: of the shape the mode
    expects, with metadata the line can carry, unique ids under a two-way
    mapping, and counts that are positive integers. *)
Definition readable (id2word : gmap Z text) (word2id : gmap text Z)
    (metadata : bool) (item : document) : Prop :=
  fits metadata item ∧ plain_meta item ∧
  well_formed id2word word2id (doc_of item) ∧
  Forall (λ p, positive_integer p.2 = true) (doc_of item).

(** Python's [==] on [(id, count)] pairs, and equality of two
    bags-of-words as sets of such pairs. *)
Definition pair_eq (p q : Z * number) : Prop := p.1 = q.1 ∧ num_eq p.2 q.2.

Definition same_bow (d e : bow) : Prop :=
  (∀ p, p ∈ d → ∃ q, q ∈ e ∧ pair_eq p q) ∧
  (∀ q, q ∈ e → ∃ p, p ∈ d ∧ pair_eq p q).

(** What a reader in mode [metadata] returns for a bag-of-words and the
    two leading fields. *)
Definition shaped (metadata : bool) (doc : bow) (meta : text * text) : document :=
  if metadata then WithMeta doc meta else Bare doc.

(** The line has at least the two leading fields. *)
Definition two_fields (line : text) : bool :=
  (2 <=? length (fields line))%nat.

(** The number of newline characters of a text. *)
Definition newlines (s : text) : nat :=
  length (List.filter is_newline s).

(** The text stops short of a final newline. *)
Definition unterminated (s : text) : bool :=
  match last s with
  | Some c => negb (is_newline c)
  | None => false
  end.

(** The truncation notices of a log, each with the count it carries. *)
Definition warnings (l : list log_record) : list nat :=
  omap (λ r, match r with Warning_truncated n => Some n | _ => None end) l.

(** The log of a call that counted [truncated] events. *)
Definition log_of (id2word : option (gmap Z text)) (truncated : nat)
    : list log_record :=
  match id2word with None => [Info_no_mapping] | Some _ => [] end
  ++ [Info_storing]
  ++ match truncated with O => [] | S _ => [Warning_truncated truncated] end.

(** The item with another bag-of-words in it. *)
Definition with_doc (item : document) (doc : bow) : document :=
  match item with
  | Bare _ => Bare doc
  | WithMeta _ meta => WithMeta doc meta
  end.



(** Only whitespace. *)
Definition blank (s : text) : Prop := Forall (λ c, isspace c = true) s.

(** No space character, the separator of the fields. *)
Definition spaceless (s : text) : Prop :=
  Forall (λ c, is_space_char c = false) s.

(** An item whose tokens and metadata have no newline in them. *)
Definition newline_free (id2word : gmap Z text) (item : document) : Prop :=
  Forall one_line (tokens_of id2word (doc_of item)) ∧
  match item with
  | Bare _ => True
  | WithMeta _ (docid, doclang) => one_line docid ∧ one_line doclang
  end.

(** An item whose tokens and metadata are plain fields. *)
Definition plain_fields (id2word : gmap Z text) (item : document) : Prop :=
  Forall (λ w, is_plain w = true) (tokens_of id2word (doc_of item)) ∧
  plain_meta item.

(** Every count is within the tolerance of its integer part. *)
Definition within_tolerance (doc : bow) : Prop :=
  Forall (λ p, exceeds_tolerance p.2 = false) doc.

End Props.

(** ** Sample data *)

Module Sample.

Definition id2word : gmap Z text :=
  <[1%Z := txt "dog"]> (<[0%Z := txt "cat"]> ∅).

Definition word2id : gmap text Z :=
  <[txt "dog" := 1%Z]> (<[txt "cat" := 0%Z]> ∅).

(** A builder that is not consulted when a mapping is passed. *)
Definition no_builder : list document -> gmap Z text := fun _ => ∅.

(** Three bare documents; the last has the count 2.5. *)
Definition corpus : list document :=
  [Bare [(0%Z, PyInt 2); (1%Z, PyInt 1)]; Bare []; Bare [(1%Z, PyFloat (5 # 2))]].

Definition corpus_saved : saved :=
  {| written := txt "0 __unknown__ cat cat dog" ++ newline ::
                txt "1 __unknown__ " ++ newline ::
                txt "2 __unknown__ dog dog" ++ [newline];
     offsets := [0; 26; 41]%nat;
     log := [Info_storing; Warning_truncated 1] |}.

(** One document with its metadata, as a reader in metadata mode
    yields it. *)
Definition tagged : list document :=
  [WithMeta [(0%Z, PyInt 2); (1%Z, PyInt 1)] (txt "7", txt "en")].

Definition tagged_saved : saved :=
  {| written := txt "7 en cat cat dog" ++ [newline];
     offsets := [0%nat];
     log := [Info_storing] |}.

(** Two bare documents with integer counts, the second one empty. *)
Definition counted : list document :=
  [Bare [(0%Z, PyInt 2); (1%Z, PyInt 1)]; Bare []].

(** A document whose one pair has the count 0. *)
Definition zero_count : list document := [Bare [(0%Z, PyInt 0)]].

(** A document whose one pair has the count 2.5. *)
Definition fractional : list document := [Bare [(1%Z, PyFloat (5 # 2))]].


Definition tab : ascii := "009"%char.

(** A line whose fields are separated by tabs. *)
Definition tab_line : text :=
  txt "7" ++ tab :: txt "en" ++ tab :: txt "cat" ++ [newline].

(** A file of two documents with a blank line between them. *)
Definition blank_file : text :=
  txt "7 en cat" ++ newline :: newline :: txt "8 en dog" ++ [newline].

End Sample.

Import Writer Reader Props.

(** * Text lemmas *)

Section Text.

Implicit Types (s w : text) (ws : list text) (c : ascii).

Lemma isspace_space : isspace space = true.
Proof. reflexivity. Qed.

Lemma isspace_newline : isspace newline = true.
Proof. reflexivity. Qed.

Lemma is_space_char_true c : is_space_char c = true ↔ c = space.
Proof. unfold is_space_char. destruct (ascii_dec c space); split; congruence. Qed.

Lemma is_newline_true c : is_newline c = true ↔ c = newline.
Proof. unfold is_newline. destruct (ascii_dec c newline); split; congruence. Qed.

Lemma is_space_char_isspace c : isspace c = false → is_space_char c = false.
Proof.
  intros H. destruct (is_space_char c) eqn:E; [|done].
  apply is_space_char_true in E. subst. discriminate.
Qed.

Lemma is_newline_isspace c : isspace c = false → is_newline c = false.
Proof.
  intros H. destruct (is_newline c) eqn:E; [|done].
  apply is_newline_true in E. subst. discriminate.
Qed.

Lemma is_plain_spec w : is_plain w = true ↔ w ≠ [] ∧ solid w.
Proof.
  unfold is_plain, solid. rewrite andb_true_iff, forallb_forall, Forall_forall.
  split.
  - intros [Hne Hall]. split; [by destruct w|].
    intros c Hc. apply list_elem_of_In, Hall in Hc. by destruct (isspace c).
  - intros [Hne Hall]. split; [by destruct w|].
    intros c Hc. apply list_elem_of_In, Hall in Hc. by rewrite Hc.
Qed.

Lemma rstrip_blank s : Forall (λ c, isspace c = true) s → rstrip s = [].
Proof. induction 1 as [|c s Hc _ IH]; simpl; [done|]. by rewrite IH, Hc. Qed.

Lemma rstrip_app_blank s t :
  Forall (λ c, isspace c = true) t → rstrip (s ++ t) = rstrip s.
Proof.
  intros Ht. induction s as [|c s IH]; simpl.
  - rewrite rstrip_blank by done. done.
  - by rewrite IH.
Qed.

Lemma rstrip_app_keep s t : rstrip t ≠ [] → rstrip (s ++ t) = s ++ rstrip t.
Proof.
  intros Ht. induction s as [|c s IH]; simpl; [done|].
  rewrite IH. destruct (s ++ rstrip t) eqn:E; [|done].
  apply app_eq_nil in E as [_ ?]. done.
Qed.

Lemma rstrip_solid s : solid s → rstrip s = s.
Proof.
  induction 1 as [|c s Hc _ IH]; simpl; [done|].
  rewrite IH, Hc. by destruct s.
Qed.

Lemma lstrip_solid_head c s : isspace c = false → lstrip (c :: s) = c :: s.
Proof. intros H. simpl. by rewrite H. Qed.

Lemma split_solid w : solid w → split w = [w].
Proof.
  induction 1 as [|c s Hc _ IH]; simpl; [done|].
  by rewrite is_space_char_isspace, IH.
Qed.

Lemma split_solid_app w s : solid w → split (w ++ space :: s) = w :: split s.
Proof.
  induction 1 as [|c w Hc _ IH]; simpl; [done|].
  by rewrite is_space_char_isspace, IH.
Qed.

Lemma join_cons w ws : ws ≠ [] → join (w :: ws) = w ++ space :: join ws.
Proof. by destruct ws. Qed.

Lemma join_plain_nonempty ws :
  ws ≠ [] → Forall (λ w, is_plain w = true) ws → join ws ≠ [].
Proof.
  intros Hne Hall. destruct Hall as [|w ws' Hw Hws]; [done|].
  apply is_plain_spec in Hw as [Hw _].
  destruct ws'; simpl; [done|]. by destruct w.
Qed.

Lemma rstrip_join ws :
  Forall (λ w, is_plain w = true) ws → rstrip (join ws) = join ws.
Proof.
  induction 1 as [|w ws Hw Hws IH]; [done|].
  destruct (decide (ws = [])) as [->|Hne].
  - simpl. apply rstrip_solid. by apply is_plain_spec in Hw as [_ ?].
  - rewrite join_cons by done.
    change (w ++ space :: join ws) with (w ++ [space] ++ join ws).
    rewrite app_assoc, rstrip_app_keep; rewrite IH; [done|].
    by apply join_plain_nonempty.
Qed.

Lemma lstrip_join ws :
  Forall (λ w, is_plain w = true) ws → lstrip (join ws) = join ws.
Proof.
  intros [|w ws' Hw Hws]; [done|].
  apply is_plain_spec in Hw as [Hne Hsolid].
  destruct w as [|c w]; [done|].
  apply Forall_cons in Hsolid as [Hc _].
  destruct ws'; simpl; by rewrite Hc.
Qed.

Lemma strip_join ws t :
  Forall (λ w, is_plain w = true) ws →
  Forall (λ c, isspace c = true) t →
  strip (join ws ++ t) = join ws.
Proof.
  intros Hws Ht. unfold strip.
  by rewrite rstrip_app_blank, rstrip_join, lstrip_join.
Qed.

Lemma split_join ws :
  ws ≠ [] → Forall (λ w, is_plain w = true) ws → split (join ws) = ws.
Proof.
  intros Hne Hall. induction Hall as [|w ws Hw Hws IH]; [done|].
  apply is_plain_spec in Hw as [_ Hsolid].
  destruct (decide (ws = [])) as [->|Hne'].
  - simpl. by apply split_solid.
  - rewrite join_cons by done. rewrite split_solid_app by done.
    by rewrite IH.
Qed.

Lemma filter_nonempty_plain ws :
  Forall (λ w, is_plain w = true) ws → List.filter nonempty ws = ws.
Proof.
  induction 1 as [|w ws Hw _ IH]; simpl; [done|].
  apply is_plain_spec in Hw as [Hne _]. rewrite IH. by destruct w.
Qed.

(** Cutting a joined list of plain fields, whatever blank tail follows,
    gives the fields back. *)
Lemma fields_join ws t :
  ws ≠ [] →
  Forall (λ w, is_plain w = true) ws →
  Forall (λ c, isspace c = true) t →
  fields (join ws ++ t) = ws.
Proof.
  intros Hne Hws Ht. unfold fields, Utils.to_unicode.
  by rewrite strip_join, split_join, filter_nonempty_plain.
Qed.

Lemma tokens_join ws :
  Forall (λ w, is_plain w = true) ws → LowCorpus.tokens (join ws) = ws.
Proof.
  intros Hws. destruct (decide (ws = [])) as [->|Hne]; [done|].
  rewrite <- (app_nil_r (join ws)). by apply (fields_join ws []).
Qed.

Lemma fields_format_line docid doclang ws :
  is_plain docid = true → is_plain doclang = true →
  Forall (λ w, is_plain w = true) ws →
  fields (format_line docid doclang (join ws)) = docid :: doclang :: ws.
Proof.
  intros Hd Hl Hws. unfold format_line.
  destruct (decide (ws = [])) as [->|Hne].
  - change (docid ++ space :: doclang ++ space :: join [] ++ [newline])
      with (docid ++ space :: doclang ++ [space; newline]).
    replace (docid ++ space :: doclang ++ [space; newline])
      with (join [docid; doclang] ++ [space; newline])
      by (simpl; by rewrite <- app_assoc).
    apply fields_join; [done|by repeat constructor|by repeat constructor].
  - replace (docid ++ space :: doclang ++ space :: join ws ++ [newline])
      with (join (docid :: doclang :: ws) ++ [newline]).
    + apply fields_join; [done|by repeat constructor|by repeat constructor].
    + rewrite (join_cons docid) by done. rewrite (join_cons doclang) by done.
      by repeat (rewrite <- app_assoc; simpl).
Qed.

End Text.

(** * The writer, loop by loop *)

Section WriterLemmas.

Variable id2word : gmap Z text.

Lemma result_bind_ok {A B} (k : A → result B) (a : A) : (Ok a ≫= k) = k a.
Proof. reflexivity. Qed.

Lemma result_bind_inv {A B} (k : A → result B) (r : result A) (b : B) :
  (r ≫= k) = Ok b → ∃ a, r = Ok a ∧ k a = Ok b.
Proof. destruct r as [a|e]; [eauto|discriminate]. Qed.

Lemma getitem_inv (wordid : Z) (tok : text) :
  getitem id2word wordid = Ok tok → id2word !! wordid = Some tok.
Proof. unfold getitem. by destruct (id2word !! wordid); intros [= ->]. Qed.

Lemma events_cons p doc :
  events (p :: doc) = ((if exceeds_tolerance p.2 then 1 else 0) + events doc)%nat.
Proof. unfold events. simpl. by destruct (exceeds_tolerance p.2). Qed.

Lemma events_app d1 d2 : events (d1 ++ d2) = (events d1 + events d2)%nat.
Proof. unfold events. by rewrite List.filter_app, length_app. Qed.

Lemma tokens_of_app d1 d2 :
  tokens_of id2word (d1 ++ d2) = tokens_of id2word d1 ++ tokens_of id2word d2.
Proof. unfold tokens_of. by rewrite flat_map_app. Qed.

Lemma tokens_of_cons wordid v doc :
  tokens_of id2word ((wordid, v) :: doc)
  = replicate (Z.to_nat (int v)) (default [] (id2word !! wordid))
    ++ tokens_of id2word doc.
Proof. reflexivity. Qed.

Lemma collect_words_known doc words truncated :
  known id2word doc →
  collect_words id2word doc words truncated
  = Ok (words ++ tokens_of id2word doc, (truncated + events doc)%nat).
Proof.
  intros Hk. revert words truncated.
  induction Hk as [|[wordid v] doc [tok Htok] _ IH]; intros words truncated.
  - simpl. by rewrite app_nil_r, Nat.add_0_r.
  - cbn [fst] in Htok. cbn [collect_words]. unfold getitem. rewrite Htok.
    rewrite result_bind_ok, IH, events_cons, tokens_of_cons, Htok.
    cbn [fst snd default]. rewrite <- app_assoc. do 2 f_equal.
    destruct (exceeds_tolerance v); lia.
Qed.

Lemma collect_words_inv doc words truncated r :
  collect_words id2word doc words truncated = Ok r → known id2word doc.
Proof.
  revert words truncated.
  induction doc as [|[wordid v] doc IH]; intros words truncated H.
  - constructor.
  - cbn [collect_words] in H. apply result_bind_inv in H as (tok & Htok & H).
    apply getitem_inv in Htok. constructor; [by eexists|by eapply IH].
Qed.

Lemma unpack_fits metadata n item :
  fits metadata item →
  unpack metadata n item
  = Ok ((heading metadata n item).1, (heading metadata n item).2, doc_of item).
Proof.
  destruct item as [doc|doc [docid doclang]]; simpl; intros ->; reflexivity.
Qed.

Lemma unpack_inv metadata n item r :
  unpack metadata n item = Ok r → fits metadata item.
Proof.
  destruct metadata, item as [doc|doc [docid doclang]]; simpl; try done.
  - by destruct (length doc <? 2)%nat.
  - by destruct (length doc =? 2)%nat.
Qed.

Lemma starts_app pos ls1 ls2 :
  starts pos (ls1 ++ ls2)
  = starts pos ls1 ++ starts (pos + length (concat ls1)) ls2.
Proof.
  revert pos. induction ls1 as [|l ls1 IH]; intros pos; simpl.
  - by rewrite Nat.add_0_r.
  - rewrite IH, length_app. do 3 f_equal. lia.
Qed.

Lemma write_docs_encodable metadata corpus n fout offs truncated :
  encodable id2word metadata corpus →
  write_docs id2word metadata corpus n fout offs truncated
  = Ok (fout ++ concat (lines_of id2word metadata n corpus),
        offs ++ starts (length fout) (lines_of id2word metadata n corpus),
        (truncated + total_events corpus)%nat).
Proof.
  intros He. revert n fout offs truncated.
  induction He as [|item corpus [Hfit Hk] _ IH]; intros n fout offs truncated.
  - simpl. by rewrite !app_nil_r, Nat.add_0_r.
  - cbn [write_docs]. rewrite unpack_fits by done. rewrite result_bind_ok.
    cbn beta iota. rewrite collect_words_known by done. rewrite result_bind_ok.
    cbn beta iota. rewrite IH. unfold Utils.to_utf8.
    cbn [lines_of concat starts total_events map foldr app].
    fold (line_of id2word metadata n item).
    rewrite length_app, <- !app_assoc. simpl. f_equal. f_equal.
    unfold total_events. lia.
Qed.

Lemma write_docs_inv metadata corpus n fout offs truncated r :
  write_docs id2word metadata corpus n fout offs truncated = Ok r →
  encodable id2word metadata corpus.
Proof.
  revert n fout offs truncated.
  induction corpus as [|item corpus IH]; intros n fout offs truncated H.
  - constructor.
  - cbn [write_docs] in H.
    apply result_bind_inv in H as ([[doc_id doc_lang] doc] & Hu & H).
    apply result_bind_inv in H as ([words t] & Hc & H).
    assert (Hfit : fits metadata item) by by eapply unpack_inv.
    rewrite unpack_fits in Hu by done. injection Hu as _ _ <-.
    constructor; [split; [done|by eapply collect_words_inv]|by eapply IH].
Qed.

End WriterLemmas.

(** * The decimal rendering *)


Lemma digits_solid (d : uint) : solid (digits d).
Proof. induction d; simpl; [constructor|by constructor..]. Qed.

Lemma digits_nonempty (d : uint) : d ≠ Nil → digits d ≠ [].
Proof. by destruct d. Qed.

Lemma to_uint_nonnil (n : nat) : Nat.to_uint n ≠ Nil.
Proof.
  intros E. pose proof (Unsigned.to_of (Nat.to_uint n)) as H.
  rewrite Unsigned.of_to, E in H. discriminate H.
Qed.

Lemma str_of_nat_plain (n : nat) : is_plain (str_of_nat n) = true.
Proof.
  apply is_plain_spec. split; [|apply digits_solid].
  apply digits_nonempty, to_uint_nonnil.
Qed.


(** * Where the lines start *)

Section Positions.

Implicit Types (ls : list (list ascii)) (pos i : nat).

Lemma length_starts pos ls : length (starts pos ls) = length ls.
Proof. revert pos. induction ls as [|l ls IH]; intros pos; simpl; [done|by rewrite IH]. Qed.

Lemma starts_lookup pos ls i :
  (i < length ls)%nat →
  starts pos ls !! i = Some (pos + length (concat (take i ls)))%nat.
Proof.
  revert pos i. induction ls as [|l ls IH]; intros pos i Hi; simpl in Hi; [lia|].
  destruct i as [|i]; simpl.
  - by rewrite Nat.add_0_r.
  - rewrite IH by lia. rewrite length_app. f_equal. lia.
Qed.

Lemma starts_ge pos ls a : a ∈ starts pos ls → (pos ≤ a)%nat.
Proof.
  revert pos. induction ls as [|l ls IH]; intros pos; simpl.
  - by intros ?%elem_of_nil.
  - intros [->|H%IH]%elem_of_cons; lia.
Qed.

Lemma starts_increasing pos ls i j a b :
  Forall (λ l, l ≠ []) ls →
  (i < j)%nat → starts pos ls !! i = Some a → starts pos ls !! j = Some b →
  (a < b)%nat.
Proof.
  intros Hls. revert pos i j.
  induction Hls as [|l ls Hl _ IH]; intros pos i j Hij Ha Hb; [done|].
  destruct j as [|j]; [lia|]. simpl in Hb.
  destruct i as [|i]; simpl in Ha.
  - injection Ha as <-. apply list_elem_of_lookup_2, starts_ge in Hb.
    destruct l; [done|]. simpl in Hb. lia.
  - eapply IH; [|done..]. lia.
Qed.

Lemma drop_concat_take ls i :
  drop (length (concat (take i ls))) (concat ls) = concat (drop i ls).
Proof.
  rewrite <- (take_drop i ls) at 2. rewrite concat_app.
  by rewrite drop_app_length.
Qed.

Lemma take_concat_take ls i :
  take (length (concat (take i ls))) (concat ls) = concat (take i ls).
Proof.
  rewrite <- (take_drop i ls) at 2. rewrite concat_app.
  by rewrite take_app_length.
Qed.

End Positions.

Section Lines.

Variable id2word : gmap Z (list ascii).
Variable metadata : bool.

Lemma length_lines_of n corpus :
  length (lines_of id2word metadata n corpus) = length corpus.
Proof. revert n. induction corpus as [|item corpus IH]; intros n; simpl; [done|by rewrite IH]. Qed.

Lemma lines_of_lookup n corpus i item :
  corpus !! i = Some item →
  lines_of id2word metadata n corpus !! i
  = Some (line_of id2word metadata (n + i) item).
Proof.
  revert n i. induction corpus as [|item' corpus IH]; intros n i H; [done|].
  destruct i as [|i]; simpl in *.
  - injection H as ->. by rewrite Nat.add_0_r.
  - rewrite (IH (S n) i H). do 2 f_equal. lia.
Qed.

Lemma line_of_nonempty n item : line_of id2word metadata n item ≠ [].
Proof. unfold line_of, format_line. intros H. by apply app_eq_nil in H as [_ ?]. Qed.

Lemma lines_of_nonempty n corpus :
  Forall (λ l, l ≠ []) (lines_of id2word metadata n corpus).
Proof.
  revert n. induction corpus as [|item corpus IH]; intros n; simpl; constructor;
    [apply line_of_nonempty|apply IH].
Qed.

(** The file from the start of line [i] on: that line, then the rest. *)
Lemma drop_to_line corpus i item :
  corpus !! i = Some item →
  ∃ off rest,
    starts 0 (lines_of id2word metadata 0 corpus) !! i = Some off ∧
    drop off (concat (lines_of id2word metadata 0 corpus))
    = line_of id2word metadata i item ++ rest.
Proof.
  intros Hi. pose proof (lines_of_lookup 0 corpus i item Hi) as Hl.
  pose proof (lookup_lt_Some _ _ _ Hl) as Hlt.
  eexists _, _. split; [by apply starts_lookup|].
  simpl. rewrite drop_concat_take.
  by rewrite (drop_S _ _ _ Hl).
Qed.

End Lines.

(** * [save_corpus] as a whole *)

Section SaveCorpus.

Variable dict_from_corpus : list document → gmap Z (list ascii).

Lemma save_corpus_encodable corpus id2word metadata :
  let m := mapping_used dict_from_corpus corpus id2word in
  encodable m metadata corpus →
  save_corpus dict_from_corpus corpus id2word metadata
  = Ok {| written := concat (lines_of m metadata 0 corpus);
          offsets := starts 0 (lines_of m metadata 0 corpus);
          log := log_of id2word (total_events corpus) |}.
Proof.
  intros m He. unfold save_corpus.
  destruct id2word as [id2word|]; simpl in m; subst m;
    rewrite write_docs_encodable by done; simpl;
    by destruct (total_events corpus).
Qed.

Lemma save_corpus_inv corpus id2word metadata s :
  save_corpus dict_from_corpus corpus id2word metadata = Ok s →
  encodable (mapping_used dict_from_corpus corpus id2word) metadata corpus.
Proof.
  unfold save_corpus. destruct id2word as [id2word|]; simpl; intros H;
    apply result_bind_inv in H as ([[fout offs] t] & H & _);
    by eapply write_docs_inv.
Qed.

Lemma warnings_log_of id2word truncated :
  warnings (log_of id2word truncated)
  = match truncated with O => [] | S _ => [truncated] end.
Proof. by destruct id2word, truncated. Qed.

End SaveCorpus.

(** * Counts *)



(** * The claims about the writer *)

Section WriterClaims.

Variable dict_from_corpus : list document → gmap Z (list ascii).


(** C9.  The offset table has one entry per document; its first entry
    is 0; its entries are strictly increasing; and the bytes before the
    [i]-th entry are exactly the lines of the documents before [i]. *)
Theorem C9_offsets_increasing corpus id2word metadata s :
  save_corpus dict_from_corpus corpus id2word metadata = Ok s →
  length (offsets s) = length corpus ∧
  (corpus ≠ [] → offsets s !! 0%nat = Some 0%nat) ∧
  (∀ i j a b, (i < j)%nat →
     offsets s !! i = Some a → offsets s !! j = Some b → (a < b)%nat) ∧
  (∀ i a, offsets s !! i = Some a →
     take a (written s)
     = concat (take i (lines_of (mapping_used dict_from_corpus corpus id2word)
                                metadata 0 corpus))).
Proof.
  intros Hs. pose proof (save_corpus_inv _ _ _ _ _ Hs) as He.
  rewrite save_corpus_encodable in Hs by done. injection Hs as <-. simpl.
  set (m := mapping_used dict_from_corpus corpus id2word) in *.
  split; [by rewrite length_starts, length_lines_of|].
  split; [by destruct corpus|].
  split.
  - intros i j a b. apply starts_increasing, lines_of_nonempty.
  - intros i a Ha. pose proof (lookup_lt_Some _ _ _ Ha) as Hlt.
    rewrite length_starts in Hlt. rewrite starts_lookup in Ha by done.
    injection Ha as <-. apply take_concat_take.
Qed.



End WriterClaims.

(** * The writer on the sample data *)

Ltac by_computation := vm_compute; first [reflexivity | done].

Ltac known_by_lookup :=
  repeat first
    [ split
    | apply Forall_nil_2
    | apply Forall_cons_2
    | reflexivity
    | eexists; vm_compute; reflexivity ].

Lemma sample_corpus_saved :
  save_corpus Sample.no_builder Sample.corpus (Some Sample.id2word) false
  = Ok Sample.corpus_saved.
Proof. by_computation. Qed.




Lemma C9_witness :
  length (offsets Sample.corpus_saved) = length Sample.corpus ∧
  ∀ i j a b, (i < j)%nat →
    offsets Sample.corpus_saved !! i = Some a →
    offsets Sample.corpus_saved !! j = Some b → (a < b)%nat.
Proof.
  pose proof (C9_offsets_increasing Sample.no_builder Sample.corpus
                (Some Sample.id2word) false Sample.corpus_saved) as H.
  destruct H as (Hlen & _ & Hinc & _).
  - vm_compute. reflexivity.
  - exact (conj Hlen Hinc).
Defined.



(** * The claims about the reader *)

Section ReaderClaims.

Variable super_line2doc : list ascii → result (list (Z * number)).
Variable metadata : bool.

Local Abbreviation line2doc := (Reader.line2doc super_line2doc metadata).
Local Abbreviation iter_lines := (Reader.iter_lines super_line2doc metadata).

Lemma line2doc_fields line :
  line2doc line
  = match fields line with
    | docid :: doclang :: words =>
        doc ← super_line2doc (join words);
        Ok (shaped metadata doc (docid, doclang))
    | _ => Raise IndexError
    end.
Proof.
  unfold Reader.line2doc. destruct (fields line) as [|docid [|doclang words]];
    try reflexivity.
  simpl. rewrite drop_0. destruct (super_line2doc (join words)); simpl; [|done].
  by destruct metadata.
Qed.

Lemma fields_blank line :
  Forall (λ c, isspace c = true) line → fields line = [].
Proof.
  intros H. unfold fields, Utils.to_unicode, strip. by rewrite rstrip_blank.
Qed.

(** C6.  A line with fewer than two fields makes [line2doc] raise the
    index error of [l[0]] or [l[1]]; a line with two fields or more does
    not: its first field is the doc-id, its second the label, and the
    result is what the base decoder makes of the remaining fields. *)
Theorem C6_fewer_than_two_fields line :
  ((length (fields line) < 2)%nat → line2doc line = Raise IndexError) ∧
  ((2 ≤ length (fields line))%nat →
   ∃ docid doclang words,
     fields line = docid :: doclang :: words ∧
     line2doc line
     = (doc ← super_line2doc (join words);
        Ok (if metadata then WithMeta doc (docid, doclang) else Bare doc))).
Proof.
  rewrite line2doc_fields.
  destruct (fields line) as [|docid [|doclang words]]; simpl; split;
    try done; try lia.
  intros _. by exists docid, doclang, words.
Qed.

Lemma iter_lines_spec lines :
  Forall2 (λ l d, line2doc l = Ok d)
          (take (length (iter_lines lines).1) lines) (iter_lines lines).1 ∧
  match (iter_lines lines).2 with
  | None => length (iter_lines lines).1 = length lines
  | Some err =>
      ∃ l, lines !! length (iter_lines lines).1 = Some l ∧
           line2doc l = Raise err
  end.
Proof.
  induction lines as [|line lines [IH1 IH2]]; simpl.
  - split; [constructor|done].
  - destruct (line2doc line) as [d|err] eqn:E; simpl.
    + destruct (iter_lines lines) as [ds e]; simpl in *.
      split; [by constructor|]. destruct e; [done|by f_equal].
    + split; [constructor|]. by exists line.
Qed.

Lemma iter_lines_all_ok lines :
  Forall (λ l, ∃ d, line2doc l = Ok d) lines →
  ∃ docs, iter_lines lines = (docs, None) ∧
          Forall2 (λ l d, line2doc l = Ok d) lines docs.
Proof.
  induction 1 as [|line lines [d Hd] _ (docs & Hit & IH)]; simpl.
  - eexists. split; [done|constructor].
  - rewrite Hd, Hit. eexists. split; [done|by constructor].
Qed.

(** C7, as amended.  Iteration applies [line2doc] to every line of the
    file, in file order, and yields the documents in that order, up to
    the first line that fails to decode: there it ends with that line's
    error.  A blank line has no fields, so it is such a line: it raises
    the index error. *)
Theorem C7_iteration_order content :
  let lines := file_lines content in
  let yielded := (__iter__ super_line2doc metadata content).1 in
  let raised := (__iter__ super_line2doc metadata content).2 in
  Forall2 (λ l d, line2doc l = Ok d) (take (length yielded) lines) yielded ∧
  match raised with
  | None => length yielded = length lines
  | Some err => ∃ l, lines !! length yielded = Some l ∧ line2doc l = Raise err
  end ∧
  ∀ line, Forall (λ c, isspace c = true) line → line2doc line = Raise IndexError.
Proof.
  intros lines yielded raised.
  destruct (iter_lines_spec lines) as [H1 H2].
  split; [exact H1|]. split; [exact H2|].
  intros line Hb. by rewrite line2doc_fields, fields_blank.
Qed.

Lemma file_lines_nil s : file_lines s = [] → s = [].
Proof.
  destruct s as [|c s]; [done|]. simpl.
  destruct (is_newline c); [done|]. by destruct (file_lines s).
Qed.

Lemma length_file_lines s :
  length (file_lines s)
  = (newlines s + if unterminated s then 1 else 0)%nat.
Proof.
  induction s as [|c s IH]; [done|].
  unfold newlines, unterminated in *. simpl.
  destruct (is_newline c) eqn:Ec; simpl.
  - rewrite IH. destruct s; [|done]. simpl. by rewrite Ec.
  - destruct (file_lines s) as [|l ls] eqn:El.
    + apply file_lines_nil in El as ->. simpl. by rewrite Ec.
    + simpl in *. rewrite IH. by destruct s.
Qed.

Lemma _calculate_num_docs_length s :
  _calculate_num_docs s = length (file_lines s).
Proof.
  unfold _calculate_num_docs. induction (file_lines s); simpl; [done|by f_equal].
Qed.

(** C8.  [_calculate_num_docs] returns the number of lines of the file:
    one per newline, and one more for a last line without newline.  When
    every line has its two fields (so none is blank) and the base decoder
    does not raise, iteration yields as many documents. *)
Theorem C8_num_docs content :
  _calculate_num_docs content = length (file_lines content) ∧
  _calculate_num_docs content
  = (newlines content + if unterminated content then 1 else 0)%nat ∧
  ((∀ s, ∃ doc, super_line2doc s = Ok doc) →
   Forall (λ l, two_fields l = true) (file_lines content) →
   ∃ docs, __iter__ super_line2doc metadata content = (docs, None) ∧
           length docs = _calculate_num_docs content).
Proof.
  split; [apply _calculate_num_docs_length|].
  split; [by rewrite _calculate_num_docs_length, length_file_lines|].
  intros Hsuper Hwf.
  destruct (iter_lines_all_ok (file_lines content)) as (docs & Hit & Hall).
  - eapply Forall_impl; [exact Hwf|]. intros l Hl.
    unfold two_fields in Hl. apply Nat.leb_le in Hl.
    rewrite line2doc_fields.
    destruct (fields l) as [|docid [|doclang words]]; simpl in Hl; [lia..|].
    destruct (Hsuper (join words)) as [doc ->]. by eexists.
  - exists docs. split; [exact Hit|].
    rewrite _calculate_num_docs_length. symmetry. by eapply Forall2_length.
Qed.

End ReaderClaims.

(** * The reader on the sample data *)

Lemma C6_witness :
  Reader.line2doc (LowCorpus.line2doc Sample.word2id) true
    (txt "lonely" ++ [newline]) = Raise IndexError ∧
  ∃ docid doclang words,
    fields (txt "7 en cat dog cat" ++ [newline]) = docid :: doclang :: words ∧
    Reader.line2doc (LowCorpus.line2doc Sample.word2id) true
      (txt "7 en cat dog cat" ++ [newline])
    = (doc ← LowCorpus.line2doc Sample.word2id (join words);
       Ok (WithMeta doc (docid, doclang))).
Proof.
  split.
  - apply (proj1 (C6_fewer_than_two_fields (LowCorpus.line2doc Sample.word2id)
                    true (txt "lonely" ++ [newline]))).
    vm_compute. lia.
  - apply (proj2 (C6_fewer_than_two_fields (LowCorpus.line2doc Sample.word2id)
                    true (txt "7 en cat dog cat" ++ [newline]))).
    vm_compute. lia.
Defined.

(** C7 fails as stated: the blank second line ends the iteration with
    the index error, after the first document; the document of the third
    line is never yielded.  Whatever the base decoder, the iteration over
    this file of three lines yields one document at most and ends with an
    error. *)
Lemma C7_counterexample :
  file_lines Sample.blank_file
  = [txt "7 en cat" ++ [newline]; [newline]; txt "8 en dog" ++ [newline]] ∧
  (∀ super_line2doc metadata,
     (length (__iter__ super_line2doc metadata Sample.blank_file).1 ≤ 1)%nat ∧
     (__iter__ super_line2doc metadata Sample.blank_file).2 ≠ None) ∧
  __iter__ (LowCorpus.line2doc Sample.word2id) false Sample.blank_file
  = ([Bare [(0%Z, PyInt 1)]], Some IndexError) ∧
  Reader.line2doc (LowCorpus.line2doc Sample.word2id) false
    (txt "8 en dog" ++ [newline]) = Ok (Bare [(1%Z, PyInt 1)]).
Proof.
  assert (Hlines : file_lines Sample.blank_file
                   = [txt "7 en cat" ++ [newline]; [newline];
                      txt "8 en dog" ++ [newline]])
    by (vm_compute; reflexivity).
  split; [exact Hlines|]. split; [|split; vm_compute; reflexivity].
  intros super_line2doc metadata. unfold __iter__. rewrite Hlines.
  cbn [iter_lines].
  replace (Reader.line2doc super_line2doc metadata [newline])
    with (@Raise document IndexError) by reflexivity.
  destruct (Reader.line2doc super_line2doc metadata (txt "7 en cat" ++ [newline]));
    simpl; split; (lia || discriminate).
Qed.

Lemma C7_witness :
  Reader.line2doc (LowCorpus.line2doc Sample.word2id) false [newline]
  = Raise IndexError.
Proof.
  apply (proj2 (proj2 (C7_iteration_order (LowCorpus.line2doc Sample.word2id)
                         false Sample.blank_file))).
  apply Forall_cons_2; [reflexivity|apply Forall_nil_2].
Defined.

Lemma C8_witness :
  ∃ docs,
    __iter__ (LowCorpus.line2doc Sample.word2id) false
      (written Sample.corpus_saved) = (docs, None) ∧
    length docs = _calculate_num_docs (written Sample.corpus_saved).
Proof.
  apply (proj2 (proj2 (C8_num_docs (LowCorpus.line2doc Sample.word2id) false
                         (written Sample.corpus_saved)))).
  - intros s. eexists. reflexivity.
  - vm_compute. repeat first [apply Forall_cons_2 | apply Forall_nil_2 | reflexivity].
Defined.

(** * Decoding what was written *)

Section Decode.

Variable id2word : gmap Z (list ascii).
Variable word2id : gmap (list ascii) Z.

Implicit Types (w tok : list ascii) (ws : list (list ascii)).
Implicit Types (doc : list (Z * number)) (v : number).

Lemma elem_of_distinct w ws : w ∈ LowCorpus.distinct ws ↔ w ∈ ws.
Proof.
  induction ws as [|x ws IH]; simpl; [done|].
  rewrite !elem_of_cons, list_elem_of_filter, IH.
  destruct (decide (w = x)) as [->|Hne]; [by split; left|].
  split; [intros [?|[_ ?]]; [done|by right]|intros [?|?]; [done|by right]].
Qed.

Lemma count_app w ws1 ws2 :
  LowCorpus.count w (ws1 ++ ws2)
  = (LowCorpus.count w ws1 + LowCorpus.count w ws2)%nat.
Proof. unfold LowCorpus.count. by rewrite filter_app, length_app. Qed.

Lemma count_replicate w n : LowCorpus.count w (replicate n w) = n.
Proof.
  unfold LowCorpus.count. induction n as [|n IH]; simpl; [done|].
  rewrite filter_cons_True by done. simpl. by rewrite IH.
Qed.

Lemma count_absent w ws : w ∉ ws → LowCorpus.count w ws = 0%nat.
Proof.
  unfold LowCorpus.count. induction ws as [|x ws IH]; [done|].
  rewrite not_elem_of_cons. intros [Hne Hws].
  rewrite filter_cons_False by done. by apply IH.
Qed.

Lemma elem_of_reduce ws id c :
  (id, c) ∈ LowCorpus.reduce word2id ws
  ↔ ∃ w, w ∈ ws ∧ word2id !! w = Some id
         ∧ c = PyInt (Z.of_nat (LowCorpus.count w ws)).
Proof.
  unfold LowCorpus.reduce. rewrite list_elem_of_omap. split.
  - intros (w & Hw & H). rewrite elem_of_distinct in Hw.
    destruct (word2id !! w) as [id'|] eqn:E; simpl in H; [|discriminate H].
    injection H as <- <-. by exists w.
  - intros (w & Hw & E & ->). exists w.
    split; [by apply elem_of_distinct|]. by rewrite E.
Qed.

Lemma two_way_spec id :
  two_way id2word word2id id = true
  ↔ ∃ tok, id2word !! id = Some tok ∧ is_plain tok = true
           ∧ word2id !! tok = Some id.
Proof.
  unfold two_way. split.
  - destruct (id2word !! id) as [tok|]; [|done].
    intros [Hp H]%andb_true_iff. exists tok.
    destruct (word2id !! tok) as [id'|]; [|done].
    apply Z.eqb_eq in H as ->. done.
  - intros (tok & -> & -> & ->). simpl. by apply Z.eqb_eq.
Qed.

Local Abbreviation all_two_way := (Props.all_two_way id2word word2id).

Lemma all_two_way_known doc : all_two_way doc → known id2word doc.
Proof.
  intros H. eapply Forall_impl; [exact H|].
  intros p (tok & -> & _)%two_way_spec. by eexists.
Qed.

Lemma tokens_of_plain doc :
  all_two_way doc → Forall (λ w, is_plain w = true) (tokens_of id2word doc).
Proof.
  induction 1 as [|[id v] doc (tok & E & Hp & _)%two_way_spec _ IH]; [constructor|].
  rewrite tokens_of_cons. simpl in E. rewrite E. simpl.
  apply Forall_app. split; [|done]. by apply Forall_replicate.
Qed.

Lemma elem_of_tokens_of doc w :
  w ∈ tokens_of id2word doc
  → ∃ id v, (id, v) ∈ doc ∧ default [] (id2word !! id) = w ∧ (0 < int v)%Z.
Proof.
  induction doc as [|[id v] doc IH]; [by intros ?%elem_of_nil|].
  rewrite tokens_of_cons, elem_of_app. intros [H|H].
  - apply elem_of_replicate in H as [-> Hn]. exists id, v.
    split; [left|]. split; [done|lia].
  - destruct (IH H) as (id' & v' & Hin & E & Hpos). exists id', v'.
    split; [by right|done].
Qed.

(** Under a two-way mapping, another id has another token. *)
Lemma token_not_shared doc X tok :
  all_two_way doc → two_way id2word word2id X = true →
  id2word !! X = Some tok → X ∉ doc.*1 → tok ∉ tokens_of id2word doc.
Proof.
  intros Hdoc (tok' & E' & _ & Hback)%two_way_spec E HX Hin.
  assert (tok' = tok) as -> by congruence.
  apply elem_of_tokens_of in Hin as (id & v & Hin & Hd & _).
  unfold all_two_way in Hdoc. rewrite Forall_forall in Hdoc.
  pose proof (Hdoc _ Hin) as Htw. apply two_way_spec in Htw. simpl in Htw.
  destruct Htw as (t & Et & _ & Hb). rewrite Et in Hd. simpl in Hd. subst t.
  assert (id = X) as -> by congruence.
  apply HX. apply list_elem_of_fmap. by exists (X, v).
Qed.

(** What the document looks like around one of its pairs. *)
Lemma well_formed_split d1 X v d2 tok :
  well_formed id2word word2id (d1 ++ (X, v) :: d2) →
  id2word !! X = Some tok →
  all_two_way d1 ∧ all_two_way d2 ∧
  (tok ∉ tokens_of id2word d1) ∧ (tok ∉ tokens_of id2word d2).
Proof.
  intros [Hnd Htw] E.
  apply Forall_app in Htw as [H1 H2]. apply Forall_cons in H2 as [HX H2].
  rewrite fmap_app, fmap_cons in Hnd. simpl in *.
  apply NoDup_app in Hnd as (_ & Hdis & Hnd).
  apply NoDup_cons in Hnd as [HX2 _].
  split; [done|]. split; [done|].
  split.
  - eapply token_not_shared; [done..|].
    intros Hin. apply (Hdis X Hin). left.
  - by eapply token_not_shared.
Qed.

Lemma count_tokens_of d1 X v d2 tok :
  well_formed id2word word2id (d1 ++ (X, v) :: d2) →
  id2word !! X = Some tok →
  LowCorpus.count tok (tokens_of id2word (d1 ++ (X, v) :: d2))
  = Z.to_nat (int v).
Proof.
  intros Hwf E.
  destruct (well_formed_split _ _ _ _ _ Hwf E) as (_ & _ & Hn1 & Hn2).
  change ((X, v) :: d2) with ([(X, v)] ++ d2).
  rewrite !tokens_of_app, !count_app, tokens_of_cons, E. simpl.
  rewrite app_nil_r, count_replicate, !count_absent by done. lia.
Qed.

Lemma positive_integer_spec v :
  positive_integer v = true
  ↔ num_eq v (PyInt (int v)) ∧ (0 < int v)%Z.
Proof.
  unfold positive_integer, num_eq. rewrite andb_true_iff, Qeq_bool_iff.
  by rewrite Z.ltb_lt.
Qed.

(** The round trip of one document: reducing the tokens it is written
    as gives its pairs back. *)
Lemma reduce_tokens_of doc :
  well_formed id2word word2id doc →
  Forall (λ p, positive_integer p.2 = true) doc →
  same_bow doc (LowCorpus.reduce word2id (tokens_of id2word doc)).
Proof.
  intros Hwf Hpos. pose proof Hwf as [_ Htw]. split.
  - intros [X v] Hin.
    apply list_elem_of_split in Hin as (d1 & d2 & ->).
    apply Forall_app in Hpos as [_ Hpos]. apply Forall_cons in Hpos as [Hv _].
    apply positive_integer_spec in Hv as [Heq Hv].
    pose proof Htw as Htw'. apply Forall_app in Htw' as [_ Htw'].
    apply Forall_cons in Htw' as [(tok & E & _ & Hback)%two_way_spec _].
    simpl in *. exists (X, PyInt (int v)). split; [|done].
    apply elem_of_reduce. exists tok.
    split; [|split; [done|]].
    + change ((X, v) :: d2) with ([(X, v)] ++ d2).
      rewrite !tokens_of_app, tokens_of_cons, E. simpl.
      rewrite !elem_of_app, elem_of_replicate. right. left. left.
      split; [done|lia].
    + rewrite (count_tokens_of d1 X v d2 tok) by done. f_equal. lia.
  - intros [id c] (w & Hw & Hid & ->)%elem_of_reduce.
    apply elem_of_tokens_of in Hw as (X & v & Hin & Hd & Hv).
    apply list_elem_of_split in Hin as (d1 & d2 & ->).
    apply Forall_app in Hpos as [_ Hpos]. apply Forall_cons in Hpos as [Hp _].
    apply positive_integer_spec in Hp as [Heq _].
    pose proof Htw as Htw'. apply Forall_app in Htw' as [_ Htw'].
    apply Forall_cons in Htw' as [(tok & E & _ & Hback)%two_way_spec _].
    simpl in *. rewrite E in Hd. simpl in Hd. subst w.
    assert (id = X) as -> by congruence.
    exists (X, v). split; [apply elem_of_app; right; left|].
    rewrite (count_tokens_of d1 X v d2 tok) by done.
    split; [done|]. simpl. by rewrite Z2Nat.id by lia.
Qed.

End Decode.

(** * Reading the written file back, line by line *)

Section FileLines.

Implicit Types (s body rest : list ascii) (ls : list (list ascii)).

Lemma solid_one_line s : solid s → one_line s.
Proof.
  intros H. eapply Forall_impl; [exact H|]. intros c. apply is_newline_isspace.
Qed.

Lemma plain_one_line s : is_plain s = true → one_line s.
Proof. intros [_ H]%is_plain_spec. by apply solid_one_line. Qed.

Lemma one_line_space_app s body :
  one_line s → one_line body → one_line (s ++ space :: body).
Proof.
  intros Hs Hb. apply Forall_app. split; [done|]. by constructor.
Qed.

Lemma one_line_join ws :
  Forall (λ w, is_plain w = true) ws → one_line (join ws).
Proof.
  induction 1 as [|w ws Hw Hws IH]; [constructor|].
  destruct ws as [|w' ws]; [by apply plain_one_line|].
  rewrite join_cons by done. apply one_line_space_app; [by apply plain_one_line|done].
Qed.

Lemma readline_one_line body rest :
  one_line body → readline (body ++ newline :: rest) = body ++ [newline].
Proof.
  induction 1 as [|c body Hc _ IH]; simpl; [done|]. by rewrite Hc, IH.
Qed.

Lemma file_lines_one_line body rest :
  one_line body →
  file_lines (body ++ newline :: rest) = (body ++ [newline]) :: file_lines rest.
Proof.
  induction 1 as [|c body Hc _ IH]; simpl; [done|]. by rewrite Hc, IH.
Qed.

Lemma readline_terminated l rest : terminated l → readline (l ++ rest) = l.
Proof.
  intros (body & Hb & ->). rewrite <- app_assoc. by apply readline_one_line.
Qed.

Lemma file_lines_concat ls : Forall terminated ls → file_lines (concat ls) = ls.
Proof.
  induction 1 as [|l ls (body & Hb & ->) _ IH]; [done|].
  simpl. rewrite <- app_assoc. simpl. by rewrite file_lines_one_line, IH.
Qed.

Lemma format_line_terminated docid doclang ws :
  is_plain docid = true → is_plain doclang = true →
  Forall (λ w, is_plain w = true) ws →
  terminated (format_line docid doclang (join ws)).
Proof.
  intros Hd Hl Hws. exists (docid ++ space :: doclang ++ space :: join ws).
  split.
  - apply one_line_space_app; [by apply plain_one_line|].
    apply one_line_space_app; [by apply plain_one_line|by apply one_line_join].
  - unfold format_line. by repeat (rewrite <- app_assoc; simpl).
Qed.

End FileLines.

Section ReadBack.

Variable id2word : gmap Z (list ascii).
Variable word2id : gmap (list ascii) Z.

(** The mode of the writer, and the mode of the reader. *)
Variable metadata : bool.
Variable reader_metadata : bool.

Local Abbreviation decode :=
  (Reader.line2doc (LowCorpus.line2doc word2id) reader_metadata).

Lemma unknown_plain : is_plain unknown = true.
Proof. reflexivity. Qed.

Lemma heading_plain n item :
  plain_meta item →
  is_plain (heading metadata n item).1 = true ∧
  is_plain (heading metadata n item).2 = true.
Proof.
  pose proof (str_of_nat_plain n). pose proof unknown_plain.
  destruct item as [doc|doc [docid doclang]]; simpl; [done|].
  by destruct metadata.
Qed.

Lemma line_of_terminated n item :
  plain_meta item → all_two_way id2word word2id (doc_of item) →
  terminated (line_of id2word metadata n item).
Proof.
  intros [Hd Hl]%(heading_plain n) Htw.
  by apply format_line_terminated; [..|apply tokens_of_plain with word2id].
Qed.

Lemma fields_line_of n item :
  plain_meta item → all_two_way id2word word2id (doc_of item) →
  fields (line_of id2word metadata n item)
  = (heading metadata n item).1 :: (heading metadata n item).2
    :: tokens_of id2word (doc_of item).
Proof.
  intros [Hd Hl]%(heading_plain n) Htw.
  by apply fields_format_line; [..|apply tokens_of_plain with word2id].
Qed.

(** What the reader makes of a line of the writer. *)
Lemma line2doc_line_of n item :
  plain_meta item → all_two_way id2word word2id (doc_of item) →
  decode (line_of id2word metadata n item)
  = Ok (shaped reader_metadata
          (LowCorpus.reduce word2id (tokens_of id2word (doc_of item)))
          (heading metadata n item)).
Proof.
  intros Hm Htw. rewrite line2doc_fields, fields_line_of by done.
  unfold LowCorpus.line2doc. simpl.
  rewrite tokens_join by by apply tokens_of_plain with word2id.
  by destruct (heading metadata n item).
Qed.

Lemma doc_of_shaped doc meta : doc_of (shaped reader_metadata doc meta) = doc.
Proof. unfold shaped. by destruct reader_metadata. Qed.

Lemma lines_of_terminated n corpus :
  Forall (readable id2word word2id metadata) corpus →
  Forall terminated (lines_of id2word metadata n corpus).
Proof.
  intros H. revert n.
  induction H as [|item corpus (_ & Hm & [_ Htw] & _) _ IH]; intros n; simpl;
    constructor; [by apply line_of_terminated|apply IH].
Qed.

Lemma readable_encodable corpus :
  Forall (readable id2word word2id metadata) corpus →
  encodable id2word metadata corpus.
Proof.
  intros H. eapply Forall_impl; [exact H|].
  intros item (Hfit & _ & [_ Htw] & _). split; [done|].
  by apply all_two_way_known with word2id.
Qed.

Lemma iter_lines_lines_of n corpus :
  Forall (readable id2word word2id metadata) corpus →
  ∃ docs,
    iter_lines (LowCorpus.line2doc word2id) reader_metadata
               (lines_of id2word metadata n corpus) = (docs, None) ∧
    Forall2 (λ item d, same_bow (doc_of item) (doc_of d)) corpus docs.
Proof.
  intros H. revert n.
  induction H as [|item corpus (_ & Hm & Hwf & Hpos) _ IH]; intros n; simpl.
  - eexists. split; [done|constructor].
  - destruct (IH (S n)) as (docs & -> & Hall).
    rewrite line2doc_line_of by (done || apply Hwf).
    eexists. split; [done|]. constructor; [|done].
    rewrite doc_of_shaped. by apply reduce_tokens_of.
Qed.

End ReadBack.

(** * The claims about writing and reading back *)

Section RoundTripClaims.

Variable dict_from_corpus : list document → gmap Z (list ascii).


(** C2, as amended.  When every document has the shape the mode
    expects, unique ids under a two-way mapping with plain tokens, and
    counts that are positive integers (and, in metadata mode, a doc-id
    and a label that are plain), [save_corpus] writes the corpus, and
    iterating over the written file ends without an error, having yielded
    one document per document of the corpus, each with the same
    bag-of-words, as a set of pairs, as the document at its position. *)
Theorem C2_round_trip corpus id2word word2id metadata reader_metadata :
  let m := mapping_used dict_from_corpus corpus id2word in
  Forall (readable m word2id metadata) corpus →
  ∃ s docs,
    save_corpus dict_from_corpus corpus id2word metadata = Ok s ∧
    __iter__ (LowCorpus.line2doc word2id) reader_metadata (written s)
    = (docs, None) ∧
    length docs = length corpus ∧
    ∀ i item, corpus !! i = Some item →
      ∃ d, docs !! i = Some d ∧ same_bow (doc_of item) (doc_of d).
Proof.
  intros m Hr.
  destruct (iter_lines_lines_of m word2id metadata reader_metadata 0 corpus Hr)
    as (docs & Hit & Hall).
  eexists _, docs.
  split; [by apply save_corpus_encodable, readable_encodable with word2id|].
  simpl. split.
  - unfold __iter__. rewrite file_lines_concat; [done|].
    by apply lines_of_terminated with word2id.
  - split; [symmetry; by eapply Forall2_length|].
    intros i item Hi.
    destruct (Forall2_lookup_l _ _ _ _ _ Hall Hi) as (d & Hd & Hsame).
    by exists d.
Qed.

(** C3, as amended.  After [save_corpus] has written the corpus, let the
    document at position [i] have unique ids under a two-way mapping with
    plain tokens, counts that are positive integers and plain metadata.
    Then [docbyoffset] at the [i]-th offset returns a document with the
    same bag-of-words, as a set of pairs; its metadata are the two leading
    fields of the line, which are the document's own metadata when the
    writer and the reader are both in metadata mode. *)
Theorem C3_docbyoffset corpus id2word word2id metadata reader_metadata s i item :
  let m := mapping_used dict_from_corpus corpus id2word in
  save_corpus dict_from_corpus corpus id2word metadata = Ok s →
  corpus !! i = Some item →
  plain_meta item →
  well_formed m word2id (doc_of item) →
  Forall (λ p, positive_integer p.2 = true) (doc_of item) →
  ∃ off doc,
    offsets s !! i = Some off ∧
    docbyoffset (LowCorpus.line2doc word2id) reader_metadata (written s) off
    = Ok (shaped reader_metadata doc (heading metadata i item)) ∧
    same_bow (doc_of item) doc ∧
    (metadata = true → reader_metadata = true →
     shaped reader_metadata doc (heading metadata i item) = with_doc item doc).
Proof.
  intros m Hs Hi Hmeta Hwf Hpos.
  pose proof (save_corpus_inv _ _ _ _ _ Hs) as He.
  rewrite save_corpus_encodable in Hs by done. injection Hs as <-. simpl.
  fold m in He |- *.
  destruct (drop_to_line m metadata corpus i item Hi) as (off & rest & Ho & Hd).
  exists off, (LowCorpus.reduce word2id (tokens_of m (doc_of item))).
  split; [done|]. split; [|split].
  - unfold docbyoffset. rewrite Hd, readline_terminated.
    + apply line2doc_line_of; [done|apply Hwf].
    + apply line_of_terminated with word2id; [done|apply Hwf].
  - by apply reduce_tokens_of.
  - intros -> ->. unfold encodable in He. rewrite Forall_lookup in He.
    destruct (He i item Hi) as [Hfit _].
    by destruct item as [doc|doc meta].
Qed.

End RoundTripClaims.

(** * Writing and reading back the sample data *)

Ltac readable_by_computation :=
  repeat first
    [ split
    | apply Forall_nil_2
    | apply Forall_cons_2
    | apply NoDup_nil_2
    | apply NoDup_cons_2
    | reflexivity
    | exact I
    | by (vm_compute; intros ?%list_elem_of_In; simpl in *; intuition discriminate) ].


(** C2 fails as stated: a pair with the integer count 0, its id in the
    mapping, puts no token in the line, and the document read back at its
    position is empty.  The file is the one written for the empty
    document, so no decoder could tell the two apart. *)
Lemma C2_counterexample :
  encodable Sample.id2word false Sample.zero_count ∧
  ∃ s docs,
    save_corpus Sample.no_builder Sample.zero_count (Some Sample.id2word) false
    = Ok s ∧
    save_corpus Sample.no_builder [Bare []] (Some Sample.id2word) false
    = Ok s ∧
    __iter__ (LowCorpus.line2doc Sample.word2id) false (written s)
    = (docs, None) ∧
    docs = [Bare []] ∧
    ¬ ∃ d, docs !! 0%nat = Some d ∧ same_bow [(0%Z, PyInt 0)] (doc_of d).
Proof.
  split; [unfold encodable, Sample.zero_count; known_by_lookup|].
  eexists _, _. split; [vm_compute; reflexivity|].
  split; [vm_compute; reflexivity|].
  split; [vm_compute; reflexivity|]. split; [reflexivity|].
  intros (d & [= <-] & [H _]).
  destruct (H (0%Z, PyInt 0)) as (q & Hq & _); [left|].
  by apply elem_of_nil in Hq.
Qed.

Lemma C2_witness :
  ∃ s docs,
    save_corpus Sample.no_builder Sample.counted (Some Sample.id2word) false
    = Ok s ∧
    __iter__ (LowCorpus.line2doc Sample.word2id) false (written s)
    = (docs, None) ∧
    length docs = 2%nat ∧
    ∀ i item, Sample.counted !! i = Some item →
      ∃ d, docs !! i = Some d ∧ same_bow (doc_of item) (doc_of d).
Proof.
  apply (C2_round_trip Sample.no_builder Sample.counted (Some Sample.id2word)
           Sample.word2id false false).
  unfold Sample.counted. readable_by_computation.
Defined.

(** C3 fails as stated: the count 2.5 is written as two tokens, and the
    document read at its offset has the count 2.  The file and the
    offsets are those written for the count 2. *)
Lemma C3_counterexample :
  ∃ s,
    save_corpus Sample.no_builder Sample.fractional (Some Sample.id2word) false
    = Ok s ∧
    (∃ s', save_corpus Sample.no_builder [Bare [(1%Z, PyInt 2)]]
             (Some Sample.id2word) false = Ok s' ∧
           written s' = written s ∧ offsets s' = offsets s) ∧
    offsets s !! 0%nat = Some 0%nat ∧
    docbyoffset (LowCorpus.line2doc Sample.word2id) false (written s) 0
    = Ok (Bare [(1%Z, PyInt 2)]) ∧
    ¬ same_bow [(1%Z, PyFloat (5 # 2))] [(1%Z, PyInt 2)].
Proof.
  eexists. split; [vm_compute; reflexivity|].
  split; [eexists; split; [vm_compute; reflexivity|by split]|].
  split; [reflexivity|]. split; [vm_compute; reflexivity|].
  intros [H _].
  destruct (H (1%Z, PyFloat (5 # 2))) as (q & Hq & _ & Heq); [left|].
  apply list_elem_of_singleton in Hq as ->. vm_compute in Heq. discriminate Heq.
Qed.

Lemma C3_witness :
  ∃ off doc,
    offsets Sample.tagged_saved !! 0%nat = Some off ∧
    docbyoffset (LowCorpus.line2doc Sample.word2id) true
      (written Sample.tagged_saved) off
    = Ok (WithMeta doc (txt "7", txt "en")) ∧
    same_bow [(0%Z, PyInt 2); (1%Z, PyInt 1)] doc.
Proof.
  destruct (C3_docbyoffset Sample.no_builder Sample.tagged
              (Some Sample.id2word) Sample.word2id true true
              Sample.tagged_saved 0
              (WithMeta [(0%Z, PyInt 2); (1%Z, PyInt 1)] (txt "7", txt "en")))
    as (off & doc & Ho & Hd & Hsame & _).
  - vm_compute. reflexivity.
  - reflexivity.
  - readable_by_computation.
  - readable_by_computation.
  - readable_by_computation.
  - exists off, doc. split; [exact Ho|]. split; [exact Hd|exact Hsame].
Defined.

(** * More on the writer: when it raises *)

Section WriterErrors.

Variable dict_from_corpus : list document → gmap Z (list ascii).

Implicit Types (m : gmap Z (list ascii)) (doc : list (Z * number)).

(** The loop over the corpus, once past the documents it writes. *)
Lemma write_docs_app m metadata before rest n fout offs truncated :
  encodable m metadata before →
  write_docs m metadata (before ++ rest) n fout offs truncated
  = write_docs m metadata rest (n + length before)
      (fout ++ concat (lines_of m metadata n before))
      (offs ++ starts (length fout) (lines_of m metadata n before))
      (truncated + total_events before).
Proof.
  intros He. revert n fout offs truncated.
  induction He as [|item before [Hfit Hk] _ IH]; intros n fout offs truncated.
  - simpl. by rewrite !app_nil_r, !Nat.add_0_r.
  - cbn [app write_docs]. rewrite unpack_fits by done. rewrite result_bind_ok.
    cbn beta iota. rewrite collect_words_known by done. rewrite result_bind_ok.
    cbn beta iota. rewrite IH. unfold Utils.to_utf8.
    cbn [lines_of concat starts total_events map foldr app length].
    fold (line_of m metadata n item).
    rewrite length_app, <- !app_assoc. simpl.
    replace (S n + length before)%nat with (n + S (length before))%nat by lia.
    f_equal; [f_equal; lia|unfold total_events; simpl; lia].
Qed.


Lemma save_corpus_write_docs corpus id2word metadata :
  save_corpus dict_from_corpus corpus id2word metadata
  = ('(fout, offs, truncated) ←
       write_docs (mapping_used dict_from_corpus corpus id2word) metadata
                  corpus 0 [] [] 0;
     Ok {| written := fout; offsets := offs; log := log_of id2word truncated |}).
Proof.
  unfold save_corpus. destruct id2word as [m|]; simpl;
    destruct (write_docs _ _ _ _ _ _ _) as [[[fout offs] [|t]]|e]; reflexivity.
Qed.



(** The first item of the wrong shape makes [save_corpus] raise.  In
    metadata mode a bare document raises the index error of [doc[1]] when
    it has fewer than two pairs, and else a type error when its first
    pair is taken for the document; without metadata an item with
    metadata raises a type error at [int(value)] when its document has
    exactly two pairs, and else the value error of the unpacking. *)
Theorem save_corpus_wrong_shape corpus id2word metadata before item after :
  let m := mapping_used dict_from_corpus corpus id2word in
  corpus = before ++ item :: after →
  encodable m metadata before →
  ¬ fits metadata item →
  save_corpus dict_from_corpus corpus id2word metadata
  = Raise match item with
          | Bare doc => if (length doc <? 2)%nat then IndexError else TypeError
          | WithMeta doc _ =>
              if (length doc =? 2)%nat then TypeError else ValueError
          end.
Proof.
  intros m Hc Hb Hfit.
  rewrite save_corpus_write_docs. fold m. rewrite Hc.
  rewrite write_docs_app by done. cbn [write_docs].
  destruct metadata, item as [doc|doc [docid doclang]]; simpl in Hfit;
    try done; simpl.
  - by destruct (length doc <? 2)%nat.
  - by destruct (length doc =? 2)%nat.
Qed.

End WriterErrors.

(** * More on the writer: the log, the offsets and the lines *)

Section WriterLayout.

Variable dict_from_corpus : list document → gmap Z (list ascii).

Implicit Types (m : gmap Z (list ascii)) (doc : list (Z * number)).

Lemma events_zero doc : events doc = 0%nat ↔ within_tolerance doc.
Proof.
  unfold events, within_tolerance. induction doc as [|p doc IH]; simpl.
  - split; [constructor|done].
  - rewrite Forall_cons. destruct (exceeds_tolerance p.2); simpl.
    + split; [done|]. by intros [? _].
    + rewrite IH. tauto.
Qed.

Lemma total_events_zero corpus :
  total_events corpus = 0%nat
  ↔ Forall (λ item, within_tolerance (doc_of item)) corpus.
Proof.
  unfold total_events. induction corpus as [|item corpus IH]; simpl.
  - split; [constructor|done].
  - rewrite Forall_cons, <- IH, <- events_zero. lia.
Qed.

Lemma exceeds_tolerance_integral (v : number) :
  num_eq v (PyInt (int v)) → exceeds_tolerance v = false.
Proof.
  unfold num_eq. simpl. intros H. unfold exceeds_tolerance.
  apply negb_false_iff, Qle_bool_iff. rewrite H.
  unfold Qminus. rewrite Qplus_opp_r. discriminate.
Qed.

(** The log has no truncation warning exactly when every count is within
    the tolerance of its integer part; counts with an integer value,
    ints and floats alike, are. *)
Theorem save_corpus_warns_iff corpus id2word metadata s :
  save_corpus dict_from_corpus corpus id2word metadata = Ok s →
  (warnings (log s) = []
   ↔ Forall (λ item, within_tolerance (doc_of item)) corpus) ∧
  (Forall (λ item, Forall (λ p, num_eq p.2 (PyInt (int p.2))) (doc_of item))
          corpus →
   warnings (log s) = []).
Proof.
  intros Hs. pose proof (save_corpus_inv _ _ _ _ _ Hs) as He.
  rewrite save_corpus_encodable in Hs by done. injection Hs as <-. simpl.
  rewrite warnings_log_of, <- total_events_zero.
  assert (Hiff : match total_events corpus with
                 | O => []
                 | S _ => [total_events corpus]
                 end = [] ↔ total_events corpus = 0%nat)
    by by destruct (total_events corpus).
  split; [exact Hiff|].
  intros Hint. apply Hiff, total_events_zero.
  eapply Forall_impl; [exact Hint|]. intros item Hitem.
  eapply Forall_impl; [exact Hitem|]. intros p. apply exceeds_tolerance_integral.
Qed.

(** Each offset is followed, in the file, by the line of its document,
    and the next offset, or the end of the file after the last document,
    is where that line ends. *)
Theorem save_corpus_offsets_step corpus id2word metadata s i item a :
  let line :=
    line_of (mapping_used dict_from_corpus corpus id2word) metadata i item in
  save_corpus dict_from_corpus corpus id2word metadata = Ok s →
  corpus !! i = Some item →
  offsets s !! i = Some a →
  take (length line) (drop a (written s)) = line ∧
  match offsets s !! S i with
  | Some b => b = (a + length line)%nat
  | None => length (written s) = (a + length line)%nat
  end.
Proof.
  intros line Hs Hi Ha. pose proof (save_corpus_inv _ _ _ _ _ Hs) as He.
  rewrite save_corpus_encodable in Hs by done. injection Hs as <-.
  simpl in *. subst line.
  set (m := mapping_used dict_from_corpus corpus id2word) in *.
  set (ls := lines_of m metadata 0 corpus) in *.
  pose proof (lines_of_lookup m metadata 0 corpus i item Hi) as Hl.
  simpl in Hl. fold ls in Hl.
  pose proof (lookup_lt_Some _ _ _ Hl) as Hlt.
  rewrite starts_lookup in Ha by done. injection Ha as <-. simpl.
  split.
  - rewrite drop_concat_take, (drop_S _ _ _ Hl). simpl.
    by rewrite take_app_length.
  - assert (Hnext : length (concat (take (S i) ls))
                    = (length (concat (take i ls))
                       + length (line_of m metadata i item))%nat).
    { rewrite (take_S_r _ _ _ Hl), concat_app, length_app. simpl.
      by rewrite app_nil_r. }
    destruct (decide (S i < length ls)%nat) as [Hlt'|Hge].
    + by rewrite starts_lookup.
    + rewrite (lookup_ge_None_2 (starts 0 ls)) by (rewrite length_starts; lia).
      rewrite <- Hnext. by rewrite take_ge by lia.
Qed.

Lemma lines_of_app m metadata n c1 c2 :
  lines_of m metadata n (c1 ++ c2)
  = lines_of m metadata n c1 ++ lines_of m metadata (n + length c1) c2.
Proof.
  revert n. induction c1 as [|item c1 IH]; intros n; simpl.
  - by rewrite Nat.add_0_r.
  - rewrite IH. do 3 f_equal. lia.
Qed.

(** Documents that follow change nothing in what is written for the
    documents before them: the file and the offsets of a corpus begin
    with the file and the offsets of each of its initial parts. *)
Theorem save_corpus_app c1 c2 m metadata s :
  save_corpus dict_from_corpus (c1 ++ c2) (Some m) metadata = Ok s →
  ∃ s1, save_corpus dict_from_corpus c1 (Some m) metadata = Ok s1 ∧
        written s1 `prefix_of` written s ∧
        offsets s1 `prefix_of` offsets s ∧
        length (offsets s1) = length c1.
Proof.
  intros Hs. pose proof (save_corpus_inv _ _ _ _ _ Hs) as He. simpl in He.
  rewrite (save_corpus_encodable _ _ (Some m)) in Hs by done.
  injection Hs as <-. simpl.
  pose proof He as He'. apply Forall_app in He' as [He1 _].
  eexists. split; [by apply (save_corpus_encodable _ _ (Some m))|]. simpl.
  rewrite lines_of_app, concat_app, starts_app.
  split; [by eexists|]. split; [by eexists|].
  by rewrite length_starts, length_lines_of.
Qed.

Lemma one_line_join_words ws : Forall one_line ws → one_line (join ws).
Proof.
  induction 1 as [|w ws Hw Hws IH]; [constructor|].
  destruct ws as [|w' ws]; [done|].
  rewrite join_cons by done. by apply one_line_space_app.
Qed.

Lemma line_of_newline_free m metadata n item :
  fits metadata item → newline_free m item →
  terminated (line_of m metadata n item).
Proof.
  intros Hfit [Htok Hmeta]. unfold line_of, format_line.
  exists ((heading metadata n item).1 ++ space :: (heading metadata n item).2
          ++ space :: join (tokens_of m (doc_of item))).
  split; [|by repeat (rewrite <- app_assoc; simpl)].
  assert (Hh : one_line (heading metadata n item).1 ∧
               one_line (heading metadata n item).2).
  { destruct item as [doc|doc [docid doclang]]; simpl in *.
    - split; apply plain_one_line; [apply str_of_nat_plain|reflexivity].
    - by subst metadata. }
  destruct Hh as [H1 H2].
  apply one_line_space_app; [done|].
  apply one_line_space_app; [done|by apply one_line_join_words].
Qed.

(** When no token and no metadata has a newline in it, the written file
    has one line per document: the lines Python reads from it are the
    lines written, and [_calculate_num_docs] on it is the length of the
    corpus. *)
Theorem save_corpus_line_count corpus id2word metadata s :
  let m := mapping_used dict_from_corpus corpus id2word in
  save_corpus dict_from_corpus corpus id2word metadata = Ok s →
  Forall (newline_free m) corpus →
  file_lines (written s) = lines_of m metadata 0 corpus ∧
  _calculate_num_docs (written s) = length corpus.
Proof.
  intros m Hs Hnl. pose proof (save_corpus_inv _ _ _ _ _ Hs) as He.
  rewrite save_corpus_encodable in Hs by done. injection Hs as <-. simpl.
  fold m in He |- *. clearbody m.
  assert (Hterm : ∀ n, Forall terminated (lines_of m metadata n corpus)).
  { induction corpus as [|item c IH]; intros n; simpl; [constructor|].
    apply Forall_cons in He as [[Hfit _] He].
    apply Forall_cons in Hnl as [Hitem Hnl].
    constructor; [by apply line_of_newline_free|by apply IH]. }
  assert (Hlines : file_lines (concat (lines_of m metadata 0 corpus))
                   = lines_of m metadata 0 corpus)
    by apply file_lines_concat, Hterm.
  split; [done|].
  by rewrite _calculate_num_docs_length, Hlines, length_lines_of.
Qed.

End WriterLayout.

(** * More on the reader: cutting a line into fields *)

Section ReaderFields.

Variable super_line2doc : list ascii → result (list (Z * number)).
Variable metadata : bool.

Implicit Types (s pre post line w : list ascii).

Local Abbreviation line2doc := (Reader.line2doc super_line2doc metadata).

Lemma lstrip_blank_app pre s : blank pre → lstrip (pre ++ s) = lstrip s.
Proof. induction 1 as [|c pre Hc _ IH]; simpl; [done|by rewrite Hc]. Qed.

Lemma rstrip_nil_blank s : rstrip s = [] → blank s.
Proof.
  induction s as [|c s IH]; simpl; [constructor|].
  destruct (rstrip s) eqn:E; [|done].
  destruct (isspace c) eqn:Ec; [|done]. intros _. constructor; [done|by apply IH].
Qed.

Lemma strip_blank_around pre s post :
  blank pre → blank post → strip (pre ++ s ++ post) = strip s.
Proof.
  intros Hpre Hpost. unfold strip.
  rewrite app_assoc, rstrip_app_blank by done.
  destruct (rstrip s) as [|c r] eqn:E.
  - rewrite rstrip_blank; [done|].
    apply Forall_app. split; [done|by apply rstrip_nil_blank].
  - rewrite rstrip_app_keep by by rewrite E.
    by rewrite E, lstrip_blank_app.
Qed.

Lemma fields_blank_around pre line post :
  blank pre → blank post → fields (pre ++ line ++ post) = fields line.
Proof.
  intros Hpre Hpost. unfold fields, Utils.to_unicode.
  by rewrite strip_blank_around.
Qed.

(** Whitespace before and after a line, its newline included, is of no
    consequence to [line2doc]. *)
Theorem line2doc_ignores_blank_ends pre line post :
  blank pre → blank post →
  line2doc (pre ++ line ++ post) = line2doc line.
Proof.
  intros Hpre Hpost. by rewrite !line2doc_fields, fields_blank_around.
Qed.

Lemma split_spaceless s : Forall spaceless (split s).
Proof.
  induction s as [|c s IH]; simpl; [by repeat constructor|].
  destruct (is_space_char c) eqn:Ec; [by repeat constructor|].
  destruct (split s) as [|w ws]; [by repeat constructor|].
  apply Forall_cons in IH as [Hw Hws]. by repeat constructor.
Qed.

Lemma fields_spaceless line :
  Forall (λ w, w ≠ [] ∧ spaceless w) (fields line).
Proof.
  unfold fields. apply Forall_forall. intros w Hw.
  apply list_elem_of_In, filter_In in Hw as [Hw Hne].
  split; [by destruct w|].
  pose proof (split_spaceless (strip (Utils.to_unicode line))) as H.
  rewrite Forall_forall in H. by apply H, list_elem_of_In.
Qed.

(** The doc-id and the label that [line2doc] returns in metadata mode are
    the first two fields of the line; neither is empty, neither has a
    space in it, and the bag-of-words is what the inherited decoder makes
    of the remaining fields joined by single spaces. *)
Theorem line2doc_metadata_fields line doc docid doclang :
  Reader.line2doc super_line2doc true line = Ok (WithMeta doc (docid, doclang)) →
  (docid ≠ [] ∧ spaceless docid) ∧
  (doclang ≠ [] ∧ spaceless doclang) ∧
  ∃ words, fields line = docid :: doclang :: words ∧
           Forall (λ w, w ≠ [] ∧ spaceless w) words ∧
           super_line2doc (join words) = Ok doc.
Proof.
  rewrite line2doc_fields. pose proof (fields_spaceless line) as Hf.
  destruct (fields line) as [|f1 [|f2 words]]; [done..|].
  destruct (super_line2doc (join words)) as [doc'|e] eqn:E; simpl; [|done].
  intros [= -> -> ->].
  apply Forall_cons in Hf as [H1 Hf]. apply Forall_cons in Hf as [H2 Hf].
  split; [done|]. split; [done|]. by exists words.
Qed.

Lemma lstrip_spaceless s : spaceless s → spaceless (lstrip s).
Proof.
  induction 1 as [|c s Hc Hs IH]; simpl; [constructor|].
  destruct (isspace c); [done|by constructor].
Qed.

Lemma rstrip_spaceless s : spaceless s → spaceless (rstrip s).
Proof.
  induction 1 as [|c s Hc Hs IH]; simpl; [constructor|].
  destruct (rstrip s) as [|c' r].
  - destruct (isspace c); by repeat constructor.
  - by constructor.
Qed.

Lemma split_spaceless_one s : spaceless s → split s = [s].
Proof. induction 1 as [|c s Hc _ IH]; simpl; [done|by rewrite Hc, IH]. Qed.

(** Only the space separates fields: a line without a space, one whose
    fields are separated by tabs for instance, has one field at most, and
    [line2doc] raises the index error on it. *)
Theorem line2doc_no_space line :
  spaceless line → line2doc line = Raise IndexError.
Proof.
  intros Hl. rewrite line2doc_fields. unfold fields, Utils.to_unicode, strip.
  rewrite split_spaceless_one by by apply lstrip_spaceless, rstrip_spaceless.
  simpl. by destruct (nonempty _).
Qed.

End ReaderFields.

(** * More on the reader: iteration and access by offset *)

Section ReaderAccess.

Variable dict_from_corpus : list document → gmap Z (list ascii).
Variable super_line2doc : list ascii → result (list (Z * number)).
Variable metadata : bool.

Implicit Types (s body pre rest l : list ascii).

Local Abbreviation line2doc := (Reader.line2doc super_line2doc metadata).
Local Abbreviation iter_lines := (Reader.iter_lines super_line2doc metadata).
Local Abbreviation docbyoffset := (Reader.docbyoffset super_line2doc metadata).

(** Iteration never yields more documents than [_calculate_num_docs]
    counts, and it yields as many exactly when no line raises. *)
Theorem iter_at_most_num_docs content :
  let yielded := (__iter__ super_line2doc metadata content).1 in
  let raised := (__iter__ super_line2doc metadata content).2 in
  (length yielded ≤ _calculate_num_docs content)%nat ∧
  (raised = None ↔ length yielded = _calculate_num_docs content).
Proof.
  intros yielded raised. subst yielded raised. unfold __iter__.
  rewrite _calculate_num_docs_length.
  destruct (iter_lines_spec super_line2doc metadata (file_lines content))
    as [_ H].
  destruct (iter_lines (file_lines content)) as [ds [err|]]; simpl in *.
  - destruct H as (l & Hl%lookup_lt_Some & _). split; [lia|].
    split; [done|lia].
  - split; [lia|done].
Qed.

Lemma line2doc_fits line d : line2doc line = Ok d → fits metadata d.
Proof.
  rewrite line2doc_fields.
  destruct (fields line) as [|f1 [|f2 words]]; [done..|].
  destruct (super_line2doc (join words)); simpl; [|done].
  intros [= <-]. unfold shaped. by destruct metadata.
Qed.

(** What iteration yields has the shape of the reader's mode, so
    [save_corpus] in the same mode returns on it as soon as the mapping
    has the ids, while in the other mode it raises on the first document,
    and not a key error. *)
Theorem iter_then_save_corpus content m :
  let docs := (__iter__ super_line2doc metadata content).1 in
  Forall (fits metadata) docs ∧
  ((∃ out, save_corpus dict_from_corpus docs (Some m) metadata = Ok out)
   ↔ Forall (λ d, known m (doc_of d)) docs) ∧
  (docs ≠ [] →
   ∃ e, save_corpus dict_from_corpus docs (Some m) (negb metadata) = Raise e
        ∧ e ≠ KeyError).
Proof.
  intros docs. subst docs. unfold __iter__.
  destruct (iter_lines_spec super_line2doc metadata (file_lines content))
    as [H _].
  set (docs := (iter_lines (file_lines content)).1) in *.
  assert (Hfit : Forall (fits metadata) docs).
  { apply Forall_forall. intros d Hd.
    apply list_elem_of_lookup in Hd as [i Hi].
    destruct (Forall2_lookup_r _ _ _ _ _ H Hi) as (l & _ & Hl).
    by eapply line2doc_fits. }
  split; [exact Hfit|]. split.
  - split.
    + intros [out Hs]. apply save_corpus_inv in Hs. simpl in Hs.
      eapply Forall_impl; [exact Hs|]. by intros d [_ ?].
    + intros Hk. eexists. apply (save_corpus_encodable _ _ (Some m)). simpl.
      unfold encodable. rewrite Forall_forall in *. intros d Hd.
      split; [by apply Hfit|by apply Hk].
  - destruct Hfit as [|d ds Hd _]; [done|]. intros _.
    unfold save_corpus. cbn [write_docs].
    destruct metadata, d as [doc|doc [docid doclang]]; simpl in Hd; try done;
      simpl.
    + destruct (length doc =? 2)%nat; by eexists.
    + destruct (length doc <? 2)%nat; by eexists.
Qed.

(** Past the last byte of the file there is no line: [readline] returns
    the empty text, and [docbyoffset] raises the index error. *)
Theorem docbyoffset_past_end content offset :
  (length content ≤ offset)%nat →
  docbyoffset content offset = Raise IndexError.
Proof. intros H. unfold Reader.docbyoffset. by rewrite drop_ge. Qed.

(** [docbyoffset] decodes what lies between the offset and the next
    newline: what comes before the offset and what follows the newline do
    not matter. *)
Theorem docbyoffset_local pre body rest :
  one_line body →
  docbyoffset (pre ++ body ++ newline :: rest) (length pre) = line2doc body.
Proof.
  intros Hb. unfold Reader.docbyoffset.
  rewrite drop_app_length, readline_one_line by done.
  rewrite !line2doc_fields.
  change (body ++ [newline]) with ([] ++ body ++ [newline]).
  by rewrite fields_blank_around by by repeat constructor.
Qed.

Lemma file_lines_unfold s :
  s ≠ [] →
  file_lines s = readline s :: file_lines (drop (length (readline s)) s).
Proof.
  induction s as [|c s IH]; [done|]. intros _. simpl.
  destruct (is_newline c); [done|]. simpl.
  destruct s as [|c' s]; [done|]. by rewrite IH.
Qed.

Lemma readline_at_line s i l :
  file_lines s !! i = Some l →
  readline (drop (length (concat (take i (file_lines s)))) s) = l.
Proof.
  revert s. induction i as [|i IH]; intros s Hl.
  - destruct (decide (s = [])) as [->|Hne]; [done|].
    rewrite file_lines_unfold in Hl by done. by injection Hl.
  - destruct (decide (s = [])) as [->|Hne]; [done|].
    rewrite file_lines_unfold in Hl |- * by done. simpl in *.
    rewrite length_app, <- drop_drop. by apply IH.
Qed.

(** Access by offset agrees with iteration, on any file: the [i]-th
    document that [__iter__] yields is the one [docbyoffset] returns at
    the offset where the [i]-th line starts, the total length of the
    lines before it. *)
Theorem docbyoffset_agrees_with_iter content i d :
  (__iter__ super_line2doc metadata content).1 !! i = Some d →
  docbyoffset content (length (concat (take i (file_lines content)))) = Ok d.
Proof.
  unfold __iter__. intros Hd.
  destruct (iter_lines_spec super_line2doc metadata (file_lines content))
    as [H _].
  destruct (Forall2_lookup_r _ _ _ _ _ H Hd) as (l & Hl & Hdec).
  apply lookup_take_Some in Hl as [Hl _].
  unfold Reader.docbyoffset. by rewrite (readline_at_line _ _ _ Hl).
Qed.

End ReaderAccess.

(** * Writing, then reading with any inherited decoder *)

Section SaveThenRead.

Variable dict_from_corpus : list document → gmap Z (list ascii).
Variable super_line2doc : list ascii → result (list (Z * number)).
Variable reader_metadata : bool.

Implicit Types (m : gmap Z (list ascii)).

(** What the reader is to return for an item written at position [n]:
    the result of the inherited decoder on the item's tokens joined by
    spaces, with the two leading fields of the line. *)
Local Abbreviation expected m metadata n item :=
  (doc ← super_line2doc (join (tokens_of m (doc_of item)));
   Ok (shaped reader_metadata doc (heading metadata n item))).

Lemma line_of_plain_terminated m metadata n item :
  plain_fields m item → terminated (line_of m metadata n item).
Proof.
  intros [Htok [Hd Hl]%(heading_plain metadata n)].
  by apply format_line_terminated.
Qed.

Lemma line2doc_line_of_plain m metadata n item :
  plain_fields m item →
  Reader.line2doc super_line2doc reader_metadata (line_of m metadata n item)
  = expected m metadata n item.
Proof.
  intros [Htok [Hd Hl]%(heading_plain metadata n)].
  rewrite line2doc_fields. unfold line_of.
  rewrite fields_format_line by done.
  by destruct (heading metadata n item).
Qed.

Lemma iter_lines_lines_of_plain m metadata n corpus :
  Forall (plain_fields m) corpus →
  Forall (λ item, ∃ doc,
            super_line2doc (join (tokens_of m (doc_of item))) = Ok doc) corpus →
  ∃ docs,
    iter_lines super_line2doc reader_metadata (lines_of m metadata n corpus)
    = (docs, None) ∧
    length docs = length corpus ∧
    ∀ i item, corpus !! i = Some item →
      ∃ doc, super_line2doc (join (tokens_of m (doc_of item))) = Ok doc ∧
             docs !! i
             = Some (shaped reader_metadata doc (heading metadata (n + i) item)).
Proof.
  intros Hp. revert n.
  induction Hp as [|item corpus Hitem _ IH]; intros n Hok; simpl.
  - exists []. split; [done|]. split; [done|]. by intros i item [=].
  - apply Forall_cons in Hok as [[doc Hdoc] Hok].
    destruct (IH (S n) Hok) as (docs & -> & Hlen & Hall).
    rewrite line2doc_line_of_plain by done. rewrite Hdoc. simpl.
    eexists. split; [done|]. split; [simpl; by rewrite Hlen|].
    intros [|i] item' Hi; simpl in *.
    + injection Hi as <-. exists doc. by rewrite Nat.add_0_r.
    + destruct (Hall i item' Hi) as (doc' & Hdoc' & Hlook).
      exists doc'. split; [done|]. rewrite Hlook. do 3 f_equal. lia.
Qed.

(** For a document whose tokens and metadata are plain fields,
    [docbyoffset] at the document's offset hands the inherited decoder
    the document's tokens joined by single spaces, and returns its result,
    in metadata mode with the two leading fields of the line: the
    position and [__unknown__], or the doc-id and the label written from
    the document's metadata. *)
Theorem save_then_docbyoffset corpus id2word metadata s i item :
  let m := mapping_used dict_from_corpus corpus id2word in
  save_corpus dict_from_corpus corpus id2word metadata = Ok s →
  corpus !! i = Some item →
  plain_fields m item →
  ∃ off,
    offsets s !! i = Some off ∧
    Reader.docbyoffset super_line2doc reader_metadata (written s) off
    = expected m metadata i item.
Proof.
  intros m Hs Hi Hp. pose proof (save_corpus_inv _ _ _ _ _ Hs) as He.
  rewrite save_corpus_encodable in Hs by done. injection Hs as <-. simpl.
  fold m in He |- *.
  destruct (drop_to_line m metadata corpus i item Hi) as (off & rest & Ho & Hd).
  exists off. split; [done|].
  unfold Reader.docbyoffset.
  rewrite Hd, readline_terminated by by apply line_of_plain_terminated.
  by apply line2doc_line_of_plain.
Qed.

(** For a corpus whose tokens and metadata are all plain fields, and an
    inherited decoder that returns on the tokens of each document,
    iteration over the written file ends without an error and yields one
    document per document written, each one the decoder's result with,
    in metadata mode, the two leading fields of its line. *)
Theorem save_then_iter corpus id2word metadata s :
  let m := mapping_used dict_from_corpus corpus id2word in
  save_corpus dict_from_corpus corpus id2word metadata = Ok s →
  Forall (plain_fields m) corpus →
  Forall (λ item, ∃ doc,
            super_line2doc (join (tokens_of m (doc_of item))) = Ok doc) corpus →
  ∃ docs,
    __iter__ super_line2doc reader_metadata (written s) = (docs, None) ∧
    length docs = length corpus ∧
    ∀ i item, corpus !! i = Some item →
      ∃ doc, super_line2doc (join (tokens_of m (doc_of item))) = Ok doc ∧
             docs !! i
             = Some (shaped reader_metadata doc (heading metadata i item)).
Proof.
  intros m Hs Hp Hok. pose proof (save_corpus_inv _ _ _ _ _ Hs) as He.
  rewrite save_corpus_encodable in Hs by done. injection Hs as <-. simpl.
  fold m in He |- *. clearbody m.
  destruct (iter_lines_lines_of_plain m metadata 0 corpus Hp Hok)
    as (docs & Hit & Hlen & Hall).
  exists docs. split; [|split; [done|exact Hall]].
  unfold __iter__. rewrite file_lines_concat; [done|].
  clear Hit Hall Hok He Hlen. generalize 0%nat.
  induction Hp as [|item corpus Hitem _ IH]; intros n; simpl; constructor;
    [by apply line_of_plain_terminated|apply IH].
Qed.

End SaveThenRead.

Section ReaderModes.

Variable super_line2doc : list ascii → result (list (Z * number)).

Lemma iter_lines_modes lines :
  map doc_of (iter_lines super_line2doc true lines).1
  = map doc_of (iter_lines super_line2doc false lines).1 ∧
  (iter_lines super_line2doc true lines).2
  = (iter_lines super_line2doc false lines).2.
Proof.
  induction lines as [|line lines IH]; simpl; [done|].
  rewrite !line2doc_fields.
  destruct (fields line) as [|f1 [|f2 words]]; [done..|].
  destruct (super_line2doc (join words)) as [doc|e]; simpl; [|done].
  destruct (iter_lines super_line2doc true lines) as [ds1 e1].
  destruct (iter_lines super_line2doc false lines) as [ds2 e2].
  simpl in *. destruct IH as [-> ->]. done.
Qed.

(** The mode of the reader changes the shape of what is yielded and
    nothing else: in both modes iteration yields the same bags-of-words,
    in the same number, and ends the same way. *)
Theorem iter_mode_independent content :
  map doc_of (__iter__ super_line2doc true content).1
  = map doc_of (__iter__ super_line2doc false content).1 ∧
  (__iter__ super_line2doc true content).2
  = (__iter__ super_line2doc false content).2.
Proof. apply iter_lines_modes. Qed.

End ReaderModes.

(** * The further properties on the sample data *)

Ltac forall_by_computation :=
  repeat first
    [ apply Forall_nil_2
    | apply Forall_cons_2
    | split
    | reflexivity
    | exact I
    | progress simpl ].


Lemma save_corpus_wrong_shape_witness :
  save_corpus Sample.no_builder Sample.tagged (Some Sample.id2word) false
  = Raise TypeError.
Proof.
  apply (save_corpus_wrong_shape Sample.no_builder Sample.tagged
           (Some Sample.id2word) false []
           (WithMeta [(0%Z, PyInt 2); (1%Z, PyInt 1)] (txt "7", txt "en")) []).
  - reflexivity.
  - apply Forall_nil_2.
  - simpl. discriminate.
Defined.

Lemma save_corpus_warns_iff_witness :
  warnings (log Sample.tagged_saved) = [].
Proof.
  apply (proj2 (save_corpus_warns_iff Sample.no_builder Sample.tagged
                  (Some Sample.id2word) true Sample.tagged_saved
                  ltac:(vm_compute; reflexivity))).
  unfold Sample.tagged. forall_by_computation.
Defined.

Lemma save_corpus_offsets_step_witness :
  let line :=
    line_of Sample.id2word false 0 (Bare [(0%Z, PyInt 2); (1%Z, PyInt 1)]) in
  take (length line) (drop 0 (written Sample.corpus_saved)) = line ∧
  match offsets Sample.corpus_saved !! 1%nat with
  | Some b => b = (0 + length line)%nat
  | None => length (written Sample.corpus_saved) = (0 + length line)%nat
  end.
Proof.
  apply (save_corpus_offsets_step Sample.no_builder Sample.corpus
           (Some Sample.id2word) false Sample.corpus_saved 0
           (Bare [(0%Z, PyInt 2); (1%Z, PyInt 1)]) 0).
  - vm_compute. reflexivity.
  - reflexivity.
  - reflexivity.
Defined.

Lemma save_corpus_app_witness :
  ∃ s1,
    save_corpus Sample.no_builder [Bare [(0%Z, PyInt 2); (1%Z, PyInt 1)]]
      (Some Sample.id2word) false = Ok s1 ∧
    written s1 `prefix_of` written Sample.corpus_saved ∧
    offsets s1 `prefix_of` offsets Sample.corpus_saved ∧
    length (offsets s1) = 1%nat.
Proof.
  apply (save_corpus_app Sample.no_builder
           [Bare [(0%Z, PyInt 2); (1%Z, PyInt 1)]]
           [Bare []; Bare [(1%Z, PyFloat (5 # 2))]]
           Sample.id2word false Sample.corpus_saved).
  vm_compute. reflexivity.
Defined.

Lemma save_corpus_line_count_witness :
  file_lines (written Sample.corpus_saved)
  = lines_of Sample.id2word false 0 Sample.corpus ∧
  _calculate_num_docs (written Sample.corpus_saved) = 3%nat.
Proof.
  apply (save_corpus_line_count Sample.no_builder Sample.corpus
           (Some Sample.id2word) false Sample.corpus_saved).
  - vm_compute. reflexivity.
  - unfold Sample.corpus, newline_free, one_line. forall_by_computation.
Defined.

Lemma line2doc_ignores_blank_ends_witness :
  Reader.line2doc (LowCorpus.line2doc Sample.word2id) true
    ([Sample.tab] ++ txt "7 en cat" ++ [" "%char; newline])
  = Reader.line2doc (LowCorpus.line2doc Sample.word2id) true (txt "7 en cat").
Proof.
  apply (line2doc_ignores_blank_ends (LowCorpus.line2doc Sample.word2id) true
           [Sample.tab] (txt "7 en cat") [" "%char; newline]).
  - unfold blank. forall_by_computation.
  - unfold blank. forall_by_computation.
Defined.

Lemma line2doc_metadata_fields_witness :
  (txt "7" ≠ [] ∧ spaceless (txt "7")) ∧
  (txt "en" ≠ [] ∧ spaceless (txt "en")) ∧
  ∃ words,
    fields (txt "7 en cat dog cat" ++ [newline])
    = txt "7" :: txt "en" :: words ∧
    Forall (λ w, w ≠ [] ∧ spaceless w) words ∧
    LowCorpus.line2doc Sample.word2id (join words)
    = Ok [(0%Z, PyInt 2); (1%Z, PyInt 1)].
Proof.
  apply (line2doc_metadata_fields (LowCorpus.line2doc Sample.word2id)
           (txt "7 en cat dog cat" ++ [newline])).
  vm_compute. reflexivity.
Defined.

Lemma line2doc_no_space_witness :
  Reader.line2doc (LowCorpus.line2doc Sample.word2id) false Sample.tab_line
  = Raise IndexError.
Proof.
  apply (line2doc_no_space (LowCorpus.line2doc Sample.word2id) false
           Sample.tab_line).
  unfold spaceless, Sample.tab_line. forall_by_computation.
Defined.

Lemma iter_then_save_corpus_witness :
  ∃ e,
    save_corpus Sample.no_builder
      (__iter__ (LowCorpus.line2doc Sample.word2id) true
                (written Sample.tagged_saved)).1
      (Some Sample.id2word) false = Raise e ∧
    e ≠ KeyError.
Proof.
  apply (proj2 (proj2 (iter_then_save_corpus Sample.no_builder
                         (LowCorpus.line2doc Sample.word2id) true
                         (written Sample.tagged_saved) Sample.id2word))).
  vm_compute. discriminate.
Defined.

Lemma docbyoffset_past_end_witness :
  docbyoffset (LowCorpus.line2doc Sample.word2id) true
    (written Sample.tagged_saved) 17 = Raise IndexError.
Proof.
  apply (docbyoffset_past_end (LowCorpus.line2doc Sample.word2id) true
           (written Sample.tagged_saved) 17).
  simpl. lia.
Defined.

Lemma docbyoffset_local_witness :
  docbyoffset (LowCorpus.line2doc Sample.word2id) true
    (txt "junk" ++ txt "7 en cat" ++ newline :: txt "8 en dog") 4
  = Reader.line2doc (LowCorpus.line2doc Sample.word2id) true (txt "7 en cat").
Proof.
  apply (docbyoffset_local (LowCorpus.line2doc Sample.word2id) true
           (txt "junk") (txt "7 en cat") (txt "8 en dog")).
  unfold one_line. forall_by_computation.
Defined.

Lemma docbyoffset_agrees_with_iter_witness :
  docbyoffset (LowCorpus.line2doc Sample.word2id) false
    (written Sample.corpus_saved)
    (length (concat (take 1 (file_lines (written Sample.corpus_saved)))))
  = Ok (Bare []).
Proof.
  apply (docbyoffset_agrees_with_iter (LowCorpus.line2doc Sample.word2id) false
           (written Sample.corpus_saved) 1 (Bare [])).
  vm_compute. reflexivity.
Defined.

Lemma save_then_docbyoffset_witness :
  ∃ off,
    offsets Sample.tagged_saved !! 0%nat = Some off ∧
    docbyoffset (LowCorpus.line2doc Sample.word2id) true
      (written Sample.tagged_saved) off
    = (doc ← LowCorpus.line2doc Sample.word2id (txt "cat cat dog");
       Ok (WithMeta doc (txt "7", txt "en"))).
Proof.
  apply (save_then_docbyoffset Sample.no_builder
           (LowCorpus.line2doc Sample.word2id) true Sample.tagged
           (Some Sample.id2word) true Sample.tagged_saved 0
           (WithMeta [(0%Z, PyInt 2); (1%Z, PyInt 1)] (txt "7", txt "en"))).
  - vm_compute. reflexivity.
  - reflexivity.
  - unfold plain_fields. forall_by_computation.
Defined.

Lemma save_then_iter_witness :
  ∃ docs,
    __iter__ (LowCorpus.line2doc Sample.word2id) true
      (written Sample.tagged_saved) = (docs, None) ∧
    length docs = 1%nat ∧
    ∀ i item, Sample.tagged !! i = Some item →
      ∃ doc,
        LowCorpus.line2doc Sample.word2id
          (join (tokens_of Sample.id2word (doc_of item))) = Ok doc ∧
        docs !! i = Some (shaped true doc (heading true i item)).
Proof.
  apply (save_then_iter Sample.no_builder (LowCorpus.line2doc Sample.word2id)
           true Sample.tagged (Some Sample.id2word) true Sample.tagged_saved).
  - vm_compute. reflexivity.
  - unfold Sample.tagged, plain_fields. forall_by_computation.
  - unfold Sample.tagged. apply Forall_cons_2; [|apply Forall_nil_2].
    eexists. reflexivity.
Defined.
